(** * Probability simulation experiments: a shallow embedding of
      [simulation.py] and the properties of its four experiments.

    The program keeps one dictionary, [self.results], from experiment name
    to the latest result of that experiment, draws its samples from the two
    process-wide generators ([numpy.random] and [random]) and hands bar
    charts to matplotlib.  The embedding threads these three things through
    an explicit state: the dictionary as a [gmap string Result], the two
    generators as abstract states with the operations the program calls, and
    the printed lines and shown figures as an output log.

    Python integers are unbounded, so every count is a [Z].  The counts that
    NumPy computes are 64-bit, but they are bounded by the size of an array
    that was allocated, so they are kept as [Z] too: the model does not bound
    the memory of the machine.

    Three things stay outside the model, and the theorems that would depend
    on them say so in their hypotheses: the sizes beyond which NumPy refuses
    to allocate an array; the conversion of an integer beyond the range of a
    double when a figure is drawn ([count + 0.1]); and the figures that a
    presentation which raised leaves open in pyplot. *)

From stdpp Require Import gmap strings list fin_maps.

Open Scope Z_scope.

(** ** Exceptions and floating-point quotients *)

(** The exceptions the program can raise. *)
Inductive exn :=
| ValueError          (* numpy: negative dimensions are not allowed *)
| KeyError            (* subscript of a dictionary at an absent key *)
| ZeroDivisionError.  (* [a / 0] on Python integers *)

(** The value of a true division [a / b] of two integers.  The quotient is
    kept exact as the pair it was computed from; its rounding to a double
    and its formatting with [:.2f] belong to the rendering. *)
Inductive pyfloat :=
| quot (a b : Z)   (* a / b with b <> 0 *)
| nan
| inf
| neg_inf.

(** [a / b] on Python [int]s raises when [b] is zero. *)
Definition py_truediv (a b : Z) : exn + pyfloat :=
  if b =? 0 then inl ZeroDivisionError else inr (quot a b).

(** [a / b] on NumPy integer scalars never raises: a zero divisor gives
    [nan] or an infinity (and a RuntimeWarning on stderr). *)
Definition np_truediv (a b : Z) : pyfloat :=
  if b =? 0 then
    if a =? 0 then nan else if 0 <? a then inf else neg_inf
  else quot a b.

Definition is_finite (x : pyfloat) : bool :=
  match x with quot _ _ => true | _ => false end.

(** ** Built-ins on lists *)

(** [sum(xs)]: left to right, from 0. *)
Definition py_sum (xs : list Z) : Z := foldl Z.add 0 xs.

(** [np.sum(xs)] of an integer array. *)
Definition np_sum (xs : list Z) : Z := foldl Z.add 0 xs.

(** [d.keys()] and [d.values()] of a dictionary; the order in which a
    dictionary is walked is not modelled. *)
Definition keys {V} (d : gmap Z V) : list Z := (map_to_list d).*1.
Definition values {V} (d : gmap Z V) : list V := (map_to_list d).*2.

(** [d.get(k, 0)] *)
Definition get0 (d : gmap Z Z) (k : Z) : Z := default 0 (d !! k).

(** [range(a, b)]; empty when [b <= a]. *)
Definition range (a b : Z) : list Z :=
  (λ i : nat, a + Z.of_nat i) <$> seq 0 (Z.to_nat (b - a)).

(** [xs[:n]]: a negative [n] counts from the end, and both ends are clamped
    to the list, so the slice never raises. *)
Definition slice_to {A} (xs : list A) (n : Z) : list A :=
  let len := Z.of_nat (length xs) in
  let stop := if n <? 0 then Z.max 0 (len + n) else Z.min n len in
  take (Z.to_nat stop) xs.

(** [collections.Counter(xs)]: one key per distinct element, with the number
    of its occurrences. *)
Definition Counter (xs : list Z) : gmap Z Z :=
  foldl (λ c x, <[x := default 0 (c !! x) + 1]> c) ∅ xs.

(** ** Result records

    Each experiment stores a dictionary with fixed keys; the four shapes are
    the four constructors of [Result]. *)

Module Coin.
Record t := mk { heads : Z; tails : Z; raw_data : list Z }.
End Coin.

Module Die.
Record t := mk { counts : gmap Z Z; raw_data : list Z }.
End Die.

Module Card.
Record t := mk { red : Z; black : Z; raw_data : list Z }.
End Card.

Module Compound.
Record t := mk
  { both_heads : Z; at_least_one_head : Z; neither_head : Z;
    raw_data : list (Z * Z) }.
End Compound.

Inductive Result :=
| CoinTosses (r : Coin.t)
| DieRolls (r : Die.t)
| CardDraws (r : Card.t)
| CompoundEvents (r : Compound.t).

(** ** What the presentation layer receives *)

Inductive label := Name (s : string) | Face (z : Z).

(** One [bar] call: the categories with their frequencies. *)
Definition bars := list (label * Z).

Inductive Output :=
| Print (line : string)
| Figure (title_total : option Z) (plots : list bars)
         (figtext : list (string * pyfloat)).

(** ** The random sources

    The program never looks inside the generators.  It needs one integer
    from a half-open range from NumPy, and a shuffle from [random]. *)

Class NumpyRandom (G : Type) := {
  randint : Z → Z → G → Z * G;
  randint_range : ∀ low high g,
    low < high → low ≤ (randint low high g).1 < high
}.

Class PyRandom (G : Type) := {
  shuffle : list Z → G → list Z * G;
  shuffle_perm : ∀ x g, (shuffle x g).1 ≡ₚ x
}.

(** [k] successive draws from [low, high): the body of
    [np.random.randint(low, high, size)]. *)
Fixpoint draw_many `{NumpyRandom G} (low high : Z) (k : nat) (g : G)
  : list Z * G :=
  match k with
  | O => ([], g)
  | S k =>
      let '(x, g1) := randint low high g in
      let '(xs, g2) := draw_many low high k g1 in
      (x :: xs, g2)
  end.

Section Simulator.
Context {GN GP : Type} `{!NumpyRandom GN} `{!PyRandom GP}.

(** The state a call can read and write: [self.results], the two global
    generators, and what was printed or shown so far. *)
Record State := mkState {
  results : gmap string Result;
  np_random : GN;
  py_random : GP;
  display : list Output
}.

(** A computation either returns or raises, and leaves a state behind in
    both cases. *)
Definition M (A : Type) : Type := State → (exn + A) * State.

#[global] Instance M_ret : MRet M := λ A a s, (inr a, s).

#[global] Instance M_bind : MBind M := λ A B f m s,
  match m s with
  | (inr a, s1) => f a s1
  | (inl e, s1) => (inl e, s1)
  end.

Definition raise {A} (e : exn) : M A := λ s, (inl e, s).

(** [np.random.randint(low, high)] *)
Definition np_randint (low high : Z) : M Z := λ s,
  let '(x, g) := randint low high (np_random s) in
  (inr x, mkState (results s) g (py_random s) (display s)).

(** [np.random.randint(low, high, size)]: the size is checked before
    anything is drawn. *)
Definition np_randint_array (low high size : Z) : M (list Z) := λ s,
  if size <? 0 then (inl ValueError, s)
  else
    let '(xs, g) := draw_many low high (Z.to_nat size) (np_random s) in
    (inr xs, mkState (results s) g (py_random s) (display s)).

(** [random.shuffle(x)]; the shuffled list is returned in place of the
    mutated argument. *)
Definition random_shuffle (x : list Z) : M (list Z) := λ s,
  let '(y, g) := shuffle x (py_random s) in
  (inr y, mkState (results s) (np_random s) g (display s)).

(** [self.results[key] = r] *)
Definition setitem (key : string) (r : Result) : M unit := λ s,
  (inr (), mkState (<[key := r]> (results s)) (np_random s) (py_random s)
                   (display s)).

(** [self.results[key]] *)
Definition getitem (key : string) : M Result := λ s,
  match results s !! key with
  | Some r => (inr r, s)
  | None => (inl KeyError, s)
  end.

(** [key in self.results] *)
Definition contains (key : string) : M bool := λ s,
  (inr (bool_decide (is_Some (results s !! key))), s).

(** [print(line)], and [plt.show()] of a finished figure. *)
Definition emit (o : Output) : M unit := λ s,
  (inr (), mkState (results s) (np_random s) (py_random s)
                   (display s ++ [o])).

(** [__init__]: an empty dictionary, and both generators reseeded from
    the entropy of the system (the fresh states are given). *)
Definition init (np_seeded : GN) (py_seeded : GP) : State :=
  mkState ∅ np_seeded py_seeded [].

(** *** Coin tosses *)

Definition simulate_coin_tosses (num_tosses : Z) : M Result :=
  tosses ← np_randint_array 0 2 num_tosses;
  let heads_count := np_sum tosses in
  let tails_count := num_tosses - heads_count in
  setitem "coin_tosses"
    (CoinTosses (Coin.mk heads_count tails_count tosses));;
  getitem "coin_tosses".

Definition plot_coin_tosses : M unit :=
  present ← contains "coin_tosses";
  if negb present then
    emit (Print "No coin toss simulation has been run yet.")
  else
    results ← getitem "coin_tosses";
    match results with
    | CoinTosses r =>
        let counts := [Coin.heads r; Coin.tails r] in
        let total := py_sum counts in
        emit (Figure (Some (Coin.heads r + Coin.tails r))
                [[(Name "Heads", Coin.heads r); (Name "Tails", Coin.tails r)]]
                [("Probability of Heads: ", np_truediv (Coin.heads r) total)])
    | _ => raise KeyError
    end.

(** *** Die rolls *)

Definition simulate_die_rolls (num_rolls : Z) : M Result :=
  rolls ← np_randint_array 1 7 num_rolls;
  let face_counts := Counter rolls in
  let results :=
    foldl (λ d face, <[face := get0 face_counts face]> d) ∅ (range 1 7) in
  setitem "die_rolls" (DieRolls (Die.mk results rolls));;
  getitem "die_rolls".

Definition plot_die_rolls : M unit :=
  present ← contains "die_rolls";
  if negb present then
    emit (Print "No die roll simulation has been run yet.")
  else
    results ← getitem "die_rolls";
    match results with
    | DieRolls r =>
        let faces := keys (Die.counts r) in
        let counts := values (Die.counts r) in
        let total := py_sum counts in
        match py_truediv total 6 with
        | inr expected =>
            emit (Figure None [zip (Face <$> faces) counts]
                    [("Expected frequency for each face: ", expected)])
        | inl e => raise e
        end
    | _ => raise KeyError
    end.

(** *** Card draws *)

Definition simulate_card_draws (num_draws : Z) : M Result :=
  let deck := range 1 53 in
  deck ← random_shuffle deck;
  let draws := slice_to deck num_draws in
  let red_count :=
    py_sum ((λ _, 1) <$> filter (λ card, card ≤ 26) draws) in
  let black_count := num_draws - red_count in
  setitem "card_draws" (CardDraws (Card.mk red_count black_count draws));;
  getitem "card_draws".

Definition plot_card_draws : M unit :=
  present ← contains "card_draws";
  if negb present then
    emit (Print "No card draw simulation has been run yet.")
  else
    results ← getitem "card_draws";
    match results with
    | CardDraws r =>
        let counts := [Card.red r; Card.black r] in
        let total := py_sum counts in
        match py_truediv (Card.red r) total with
        | inr p =>
            emit (Figure (Some (Card.red r + Card.black r))
                    [[(Name "Red Cards", Card.red r);
                      (Name "Black Cards", Card.black r)]]
                    [("Probability of Red Card: ", p)])
        | inl e => raise e
        end
    | _ => raise KeyError
    end.

(** *** Compound events *)

(** The body of [for _ in range(num_trials)], run [k] times on the two
    counters and the list of flips. *)
Fixpoint trials (k : nat) (both_heads at_least_one_head : Z)
    (raw_data : list (Z * Z)) : M (Z * Z * list (Z * Z)) :=
  match k with
  | O => mret (both_heads, at_least_one_head, raw_data)
  | S k =>
      flip1 ← np_randint 0 2;
      flip2 ← np_randint 0 2;
      let raw_data := raw_data ++ [(flip1, flip2)] in
      let both_heads :=
        if bool_decide (flip1 = 1 ∧ flip2 = 1)
        then both_heads + 1 else both_heads in
      let at_least_one_head :=
        if bool_decide (flip1 = 1 ∨ flip2 = 1)
        then at_least_one_head + 1 else at_least_one_head in
      trials k both_heads at_least_one_head raw_data
  end.

Definition simulate_compound_events (num_trials : Z) : M Result :=
  '(both_heads, at_least_one_head, raw_data) ←
    trials (Z.to_nat num_trials) 0 0 [];
  setitem "compound_events"
    (CompoundEvents
       (Compound.mk both_heads at_least_one_head
          (num_trials - at_least_one_head) raw_data));;
  getitem "compound_events".

Definition plot_compound_events : M unit :=
  present ← contains "compound_events";
  if negb present then
    emit (Print "No compound event simulation has been run yet.")
  else
    results ← getitem "compound_events";
    match results with
    | CompoundEvents r =>
        let both := Compound.both_heads r in
        let one := Compound.at_least_one_head r in
        let none := Compound.neither_head r in
        let counts1 := [both; one - both + none] in
        let counts2 := [one; none] in
        let total := py_sum counts1 in
        match py_truediv both total, py_truediv one total with
        | inr p_both, inr p_one =>
            emit (Figure None
                    [zip [Name "Both Heads"; Name "Not Both Heads"] counts1;
                     zip [Name "At Least One Head"; Name "No Heads"] counts2]
                    [("P(Both Heads): ", p_both);
                     ("P(At Least One Head): ", p_one)])
        | inl e, _ | _, inl e => raise e
        end
    | _ => raise KeyError
    end.

(** *** Everything in a row, with the default trial counts *)

Definition run_all_simulations : M unit :=
  emit (Print "Running coin toss simulation...");;
  simulate_coin_tosses 100;;
  plot_coin_tosses;;
  emit (Print "");;
  emit (Print "Running die roll simulation...");;
  simulate_die_rolls 60;;
  plot_die_rolls;;
  emit (Print "");;
  emit (Print "Running card draw simulation...");;
  simulate_card_draws 20;;
  plot_card_draws;;
  emit (Print "");;
  emit (Print "Running compound event simulation...");;
  simulate_compound_events 50;;
  plot_compound_events.

End Simulator.

Arguments State : clear implicits.
Arguments M : clear implicits.

(** ** A concrete random source

    A linear congruential generator, to run the experiments on.  It meets
    both interfaces: its integers stay in the range asked for, and its
    shuffle inserts every card at a drawn position of the cards shuffled
    before it. *)

Module Lcg.

Definition next (g : Z) : Z := (1103515245 * g + 12345) `mod` 2147483648.

Definition randint (low high : Z) (g : Z) : Z * Z :=
  let g1 := next g in
  (low + (g1 `div` 65536) `mod` Z.max 1 (high - low), g1).

Fixpoint shuffle (x : list Z) (g : Z) : list Z * Z :=
  match x with
  | [] => ([], g)
  | card :: x =>
      let '(y, g1) := shuffle x g in
      let '(j, g2) := randint 0 (Z.of_nat (length y) + 1) g1 in
      (take (Z.to_nat j) y ++ card :: drop (Z.to_nat j) y, g2)
  end.

End Lcg.

#[global, refine] Instance Lcg_numpy : NumpyRandom Z :=
  {| randint := Lcg.randint |}.
Proof.
  intros low high g Hlt. unfold Lcg.randint. simpl.
  pose proof (Z.mod_pos_bound (Lcg.next g `div` 65536) (Z.max 1 (high - low))).
  lia.
Defined.

#[global, refine] Instance Lcg_random : PyRandom Z :=
  {| shuffle := Lcg.shuffle |}.
Proof.
  intros x g. revert g. induction x as [|card x IH]; intros g; simpl; [done|].
  specialize (IH g). destruct (Lcg.shuffle x g) as [y g1]. simpl in *.
  rewrite <- Permutation_middle, take_drop. by constructor.
Defined.

(** A fresh simulator on two seeded generators. *)
Definition seeded (np_seed py_seed : Z) : State Z Z := init np_seed py_seed.

(** ** The four experiments, by name *)

Inductive experiment := coin_tosses | die_rolls | card_draws | compound_events.

(** The fixed key of an experiment in [self.results]. *)
Definition key (e : experiment) : string :=
  match e with
  | coin_tosses => "coin_tosses"
  | die_rolls => "die_rolls"
  | card_draws => "card_draws"
  | compound_events => "compound_events"
  end.

Definition simulate `{!NumpyRandom GN} `{!PyRandom GP} (e : experiment)
  : Z → M GN GP Result :=
  match e with
  | coin_tosses => simulate_coin_tosses
  | die_rolls => simulate_die_rolls
  | card_draws => simulate_card_draws
  | compound_events => simulate_compound_events
  end.

Definition plot `{!NumpyRandom GN} `{!PyRandom GP} (e : experiment)
  : M GN GP unit :=
  match e with
  | coin_tosses => plot_coin_tosses
  | die_rolls => plot_die_rolls
  | card_draws => plot_card_draws
  | compound_events => plot_compound_events
  end.

(** The line printed when an experiment has no stored result. *)
Definition nothing_to_show (e : experiment) : string :=
  match e with
  | coin_tosses => "No coin toss simulation has been run yet."
  | die_rolls => "No die roll simulation has been run yet."
  | card_draws => "No card draw simulation has been run yet."
  | compound_events => "No compound event simulation has been run yet."
  end.

(** The experiment a stored record belongs to. *)
Definition shape (r : Result) : experiment :=
  match r with
  | CoinTosses _ => coin_tosses
  | DieRolls _ => die_rolls
  | CardDraws _ => card_draws
  | CompoundEvents _ => compound_events
  end.

(** The total that the presentation of a record divides by (or, for the
    die, divides): the sum of the bars of its first plot. *)
Definition total (r : Result) : Z :=
  match r with
  | CoinTosses r => py_sum [Coin.heads r; Coin.tails r]
  | DieRolls r => py_sum (values (Die.counts r))
  | CardDraws r => py_sum [Card.red r; Card.black r]
  | CompoundEvents r =>
      py_sum [Compound.both_heads r;
              Compound.at_least_one_head r - Compound.both_heads r
              + Compound.neither_head r]
  end.

(** A trial count outside the contract of its experiment. *)
Definition invalid (e : experiment) (n : Z) : Prop :=
  n < 0 ∨ (e = card_draws ∧ 52 < n).


(** The number of elements of [xs] that satisfy [P]. *)
Definition count {A} (P : A → Prop) `{!∀ x, Decision (P x)} (xs : list A) : Z :=
  Z.of_nat (length (filter P xs)).

(** The state after [o] was printed or shown. *)
Definition shown {GN GP} (s : State GN GP) (o : Output) : State GN GP :=
  mkState (results s) (np_random s) (py_random s) (display s ++ [o]).

(** The pairs of flips that [k] trials draw, one coin after the other. *)
Fixpoint flips `{!NumpyRandom G} (k : nat) (g : G) : list (Z * Z) * G :=
  match k with
  | O => ([], g)
  | S k =>
      let '(flip1, g1) := randint 0 2 g in
      let '(flip2, g2) := randint 0 2 g1 in
      let '(rest, g3) := flips k g2 in
      ((flip1, flip2) :: rest, g3)
  end.

(** A session that shares the generator states of [seeded 42 7] and nothing
    else. *)
Definition busy_session : State Z Z :=
  mkState {[ "coin_tosses" := CoinTosses (Coin.mk 1 0 [1]) ]} 42 7
    [Print "Running coin toss simulation..."].

(** The session after a run of zero draws. *)
Definition no_draws : State Z Z := (simulate card_draws 0 (seeded 42 7)).2.

(** ** The session as a caller drives it *)

#[global] Instance experiment_eq_dec : EqDecision experiment.
Proof. solve_decision. Defined.

Definition experiments : list experiment :=
  [coin_tosses; die_rolls; card_draws; compound_events].

(** Every record in [self.results] sits under the key of its own
    experiment. *)
Definition well_shaped {GN GP} (s : State GN GP) : bool :=
  forallb
    (λ e, match results s !! key e with
          | Some r => bool_decide (shape r = e)
          | None => true
          end)
    experiments.

(** A trial count within the signed 64-bit range. Python integers have no
    bound, but a figure is drawn with floats, and [count + 0.1] raises
    [OverflowError] for an integer beyond the range of a double; the
    theorems about figures are stated for counts in this range, where the
    presentation code and its model agree. *)
Definition int64 (z : Z) : bool := (- 2 ^ 63 <=? z) && (z <? 2 ^ 63).

(** A stored count that a figure can take: what an experiment stores for a
    count in the 64-bit range stays within these bounds. *)
Definition plottable_count (z : Z) : bool := (- 2 ^ 64 <=? z) && (z <=? 2 ^ 64).

Definition plottable_result (r : Result) : bool :=
  match r with
  | CoinTosses c =>
      plottable_count (Coin.heads c) && plottable_count (Coin.tails c)
  | DieRolls d => forallb plottable_count (values (Die.counts d))
  | CardDraws c =>
      plottable_count (Card.red c) && plottable_count (Card.black c)
  | CompoundEvents c =>
      plottable_count (Compound.both_heads c)
      && plottable_count (Compound.at_least_one_head c)
      && plottable_count (Compound.neither_head c)
  end.

(** Every record in [self.results] holds counts that a figure can take. *)
Definition plottable {GN GP} (s : State GN GP) : bool :=
  forallb
    (λ e, match results s !! key e with
          | Some r => plottable_result r
          | None => true
          end)
    experiments.

(** The two together. *)
Definition tidy {GN GP} (s : State GN GP) : Prop :=
  well_shaped s = true ∧ plottable s = true.

(** A computation that keeps a property of the session, whether it returns
    or raises. *)
Definition keeps {GN GP A} (P : State GN GP → Prop) (m : M GN GP A) : Prop :=
  ∀ s, P s → P (m s).2.

(** The global generator an experiment draws from, and the one it has no
    use for. *)
Definition drawn_from {GN GP} (e : experiment) (s : State GN GP) : GN + GP :=
  match e with
  | card_draws => inr (py_random s)
  | _ => inl (np_random s)
  end.

Definition left_alone {GN GP} (e : experiment) (s : State GN GP) : GN + GP :=
  match e with
  | card_draws => inl (np_random s)
  | _ => inr (py_random s)
  end.

(** One call of a caller on the simulator; the state lives on when the
    call raises. *)
Inductive call :=
| Simulate (e : experiment) (n : Z)
| Plot (e : experiment)
| RunAll.

Definition perform `{!NumpyRandom GN} `{!PyRandom GP} (c : call)
    (s : State GN GP) : State GN GP :=
  match c with
  | Simulate e n => (simulate e n s).2
  | Plot e => (plot e s).2
  | RunAll => (run_all_simulations s).2
  end.

Definition session `{!NumpyRandom GN} `{!PyRandom GP} (calls : list call)
    (s : State GN GP) : State GN GP :=
  foldl (λ s c, perform c s) s calls.

(** A call whose count, if it has one, is within the 64-bit range. *)
Definition modest_call (c : call) : bool :=
  match c with
  | Simulate _ n => int64 n
  | Plot _ | RunAll => true
  end.

(** ** The unit tests of [tests.py]

    A test gathers the outcome of its assertions in order; it passes when
    all of them hold, fails on a false one, and is in error when the call
    under test raises. *)

Inductive verdict := passed | failed | errored (e : exn).

Definition run_test `{!NumpyRandom GN} `{!PyRandom GP}
    (test : M GN GP (list bool)) (s : State GN GP) : verdict :=
  match (test s).1 with
  | inr assertions => if forallb id assertions then passed else failed
  | inl e => errored e
  end.

(** [setUp]: a new simulator, then [np.random.seed(42)]; the state that
    the seed 42 gives the NumPy generator is [seed42]. *)
Definition setUp {GN GP} (seed42 np_seeded : GN) (py_seeded : GP)
  : State GN GP :=
  let simulator := init np_seeded py_seeded in
  mkState (results simulator) seed42 (py_random simulator)
    (display simulator).

Definition test_coin_tosses_normal `{!NumpyRandom GN} `{!PyRandom GP}
  : M GN GP (list bool) :=
  result ← simulate_coin_tosses 100;
  match result with
  | CoinTosses r =>
      mret [bool_decide (Coin.heads r + Coin.tails r = 100);
            bool_decide (0 ≤ Coin.heads r ≤ 100);
            bool_decide (0 ≤ Coin.tails r ≤ 100)]
  | _ => raise KeyError
  end.

Definition test_die_rolls_normal `{!NumpyRandom GN} `{!PyRandom GP}
  : M GN GP (list bool) :=
  result ← simulate_die_rolls 60;
  match result with
  | DieRolls r =>
      let counts := Die.counts r in
      mret [bool_decide (py_sum (values counts) = 60);
            forallb (λ face, bool_decide (is_Some (counts !! face)))
              (range 1 7);
            forallb (λ count, bool_decide (0 ≤ count ≤ 60)) (values counts)]
  | _ => raise KeyError
  end.

Definition test_card_draws_normal `{!NumpyRandom GN} `{!PyRandom GP}
  : M GN GP (list bool) :=
  result ← simulate_card_draws 20;
  match result with
  | CardDraws r =>
      mret [bool_decide (Card.red r + Card.black r = 20);
            bool_decide (0 ≤ Card.red r ≤ 20);
            bool_decide (0 ≤ Card.black r ≤ 20)]
  | _ => raise KeyError
  end.

Definition test_coin_tosses_zero `{!NumpyRandom GN} `{!PyRandom GP}
  : M GN GP (list bool) :=
  result ← simulate_coin_tosses 0;
  match result with
  | CoinTosses r =>
      mret [bool_decide (Coin.heads r = 0);
            bool_decide (Coin.tails r = 0);
            bool_decide (length (Coin.raw_data r) = 0%nat)]
  | _ => raise KeyError
  end.

Definition test_compound_events_consistency
    `{!NumpyRandom GN} `{!PyRandom GP} : M GN GP (list bool) :=
  result ← simulate_compound_events 100;
  match result with
  | CompoundEvents r =>
      mret [bool_decide
              (Compound.both_heads r ≤ Compound.at_least_one_head r);
            bool_decide
              (Compound.at_least_one_head r + Compound.neither_head r = 100)]
  | _ => raise KeyError
  end.

(** ** Sums and counts *)

Lemma foldl_add_shift (xs : list Z) (a : Z) :
  foldl Z.add a xs = a + foldl Z.add 0 xs.
Proof.
  revert a. induction xs as [|x xs IH]; intros a; simpl; [lia|].
  rewrite (IH (a + x)), (IH (0 + x)). lia.
Qed.

Lemma py_sum_cons (x : Z) (xs : list Z) : py_sum (x :: xs) = x + py_sum xs.
Proof. unfold py_sum. simpl. rewrite foldl_add_shift. lia. Qed.

Lemma np_sum_py_sum (xs : list Z) : np_sum xs = py_sum xs.
Proof. reflexivity. Qed.

Lemma py_sum_app (xs ys : list Z) : py_sum (xs ++ ys) = py_sum xs + py_sum ys.
Proof.
  induction xs as [|x xs IH]; simpl; [done|].
  rewrite !py_sum_cons, IH. lia.
Qed.

Lemma py_sum_perm (xs ys : list Z) : xs ≡ₚ ys → py_sum xs = py_sum ys.
Proof.
  induction 1; rewrite ?py_sum_cons; lia.
Qed.

Lemma py_sum_ones {A} (xs : list A) :
  py_sum ((λ _, 1) <$> xs) = Z.of_nat (length xs).
Proof.
  induction xs as [|x xs IH]; [done|].
  rewrite fmap_cons, py_sum_cons, IH. simpl. lia.
Qed.

Lemma count_cons {A} (P : A → Prop) `{!∀ x, Decision (P x)} x xs :
  count P (x :: xs) = (if decide (P x) then 1 else 0) + count P xs.
Proof.
  unfold count. rewrite filter_cons. destruct (decide (P x)); simpl; lia.
Qed.

Lemma count_nil {A} (P : A → Prop) `{!∀ x, Decision (P x)} : count P [] = 0.
Proof. reflexivity. Qed.

Lemma count_app {A} (P : A → Prop) `{!∀ x, Decision (P x)} xs ys :
  count P (xs ++ ys) = count P xs + count P ys.
Proof. unfold count. rewrite filter_app, length_app. lia. Qed.

Lemma count_bounds {A} (P : A → Prop) `{!∀ x, Decision (P x)} xs :
  0 ≤ count P xs ≤ Z.of_nat (length xs).
Proof. unfold count. pose proof (length_filter P xs). lia. Qed.

Lemma count_perm {A} (P : A → Prop) `{!∀ x, Decision (P x)} xs ys :
  xs ≡ₚ ys → count P xs = count P ys.
Proof. intros Hp. unfold count. by rewrite Hp. Qed.

Lemma count_ext {A} (P Q : A → Prop) `{!∀ x, Decision (P x)}
    `{!∀ x, Decision (Q x)} xs :
  Forall (λ x, P x ↔ Q x) xs → count P xs = count Q xs.
Proof.
  induction 1 as [|x xs Hx _ IH]; [done|].
  rewrite !count_cons, IH. repeat case_decide; tauto || lia.
Qed.

Lemma count_mono {A} (P Q : A → Prop) `{!∀ x, Decision (P x)}
    `{!∀ x, Decision (Q x)} (xs : list A) :
  (∀ x, P x → Q x) → count P xs ≤ count Q xs.
Proof.
  intros HPQ. induction xs as [|x xs IH]; [done|].
  rewrite !count_cons. repeat case_decide; try lia. naive_solver.
Qed.

(** The sum of a list of zeros and ones is the number of its ones. *)
Lemma sum_bits (xs : list Z) :
  Forall (λ x, 0 ≤ x < 2) xs → py_sum xs = count (λ x, x = 1) xs.
Proof.
  induction 1 as [|x xs Hx _ IH]; [done|].
  rewrite py_sum_cons, count_cons, IH. case_decide; lia.
Qed.

(** ** Arrays of draws *)

Section Draws.
Context `{!NumpyRandom G}.

Lemma draw_many_length low high k (g : G) :
  length (draw_many low high k g).1 = k.
Proof.
  revert g. induction k as [|k IH]; intros g; simpl; [done|].
  destruct (randint low high g) as [x g1]. specialize (IH g1).
  destruct (draw_many low high k g1) as [xs g2]. simpl in *. lia.
Qed.

Lemma draw_many_range low high k (g : G) :
  low < high →
  Forall (λ x, low ≤ x < high) (draw_many low high k g).1.
Proof.
  intros Hlt. revert g. induction k as [|k IH]; intros g; simpl.
  { constructor. }
  pose proof (randint_range low high g Hlt) as Hx.
  destruct (randint low high g) as [x g1]. specialize (IH g1).
  destruct (draw_many low high k g1) as [xs g2]. simpl in *.
  by constructor.
Qed.
End Draws.

Lemma flips_length `{!NumpyRandom G} k (g : G) : length (flips k g).1 = k.
Proof.
  revert g. induction k as [|k IH]; intros g; simpl; [done|].
  destruct (randint 0 2 g) as [flip1 g1].
  destruct (randint 0 2 g1) as [flip2 g2]. specialize (IH g2).
  destruct (flips k g2) as [rest g3]. simpl in *. lia.
Qed.

Lemma flips_range `{!NumpyRandom G} k (g : G) :
  Forall (λ p, 0 ≤ p.1 < 2 ∧ 0 ≤ p.2 < 2) (flips k g).1.
Proof.
  revert g. induction k as [|k IH]; intros g; simpl; [constructor|].
  pose proof (randint_range 0 2 g) as H1.
  destruct (randint 0 2 g) as [flip1 g1].
  pose proof (randint_range 0 2 g1) as H2.
  destruct (randint 0 2 g1) as [flip2 g2]. specialize (IH g2).
  destruct (flips k g2) as [rest g3]. simpl in *.
  constructor; [simpl; lia | done].
Qed.

(** ** What each experiment computes and stores *)

Ltac run :=
  unfold mbind, M_bind, mret, M_ret, raise, np_randint_array, np_randint,
    random_shuffle, setitem, getitem, contains, emit; simpl.

Section Experiments.
Context `{!NumpyRandom GN} `{!PyRandom GP}.
Implicit Types s : State GN GP.

(** A negative size is refused by the sampling call, before anything is
    drawn or stored. *)
Lemma simulate_coin_tosses_negative num_tosses s :
  num_tosses < 0 → simulate_coin_tosses num_tosses s = (inl ValueError, s).
Proof.
  intros Hn. unfold simulate_coin_tosses. run.
  by destruct (Z.ltb_spec num_tosses 0); [|lia].
Qed.

Lemma simulate_die_rolls_negative num_rolls s :
  num_rolls < 0 → simulate_die_rolls num_rolls s = (inl ValueError, s).
Proof.
  intros Hn. unfold simulate_die_rolls. run.
  by destruct (Z.ltb_spec num_rolls 0); [|lia].
Qed.

Lemma simulate_coin_tosses_run num_tosses s :
  0 ≤ num_tosses →
  let tosses := draw_many 0 2 (Z.to_nat num_tosses) (np_random s) in
  let r := CoinTosses (Coin.mk (np_sum tosses.1)
                         (num_tosses - np_sum tosses.1) tosses.1) in
  simulate_coin_tosses num_tosses s =
    (inr r, mkState (<["coin_tosses" := r]> (results s)) tosses.2
              (py_random s) (display s)).
Proof.
  intros Hn. unfold simulate_coin_tosses. run.
  destruct (Z.ltb_spec num_tosses 0); [lia|].
  destruct (draw_many 0 2 _ _) as [xs g]. simpl.
  by rewrite lookup_insert_eq.
Qed.

Lemma simulate_die_rolls_run num_rolls s :
  0 ≤ num_rolls →
  let rolls := draw_many 1 7 (Z.to_nat num_rolls) (np_random s) in
  let counts :=
    foldl (λ d face, <[face := get0 (Counter rolls.1) face]> d) ∅
      (range 1 7) in
  let r := DieRolls (Die.mk counts rolls.1) in
  simulate_die_rolls num_rolls s =
    (inr r, mkState (<["die_rolls" := r]> (results s)) rolls.2
              (py_random s) (display s)).
Proof.
  intros Hn. unfold simulate_die_rolls. run.
  destruct (Z.ltb_spec num_rolls 0); [lia|].
  destruct (draw_many 1 7 _ _) as [xs g]. simpl.
  by rewrite lookup_insert_eq.
Qed.

(** The card draw and the compound event check nothing: they return a
    record for every integer. *)
Lemma simulate_card_draws_run num_draws s :
  let deck := shuffle (range 1 53) (py_random s) in
  let draws := slice_to deck.1 num_draws in
  let red_count := py_sum ((λ _, 1) <$> filter (λ card, card ≤ 26) draws) in
  let r := CardDraws (Card.mk red_count (num_draws - red_count) draws) in
  simulate_card_draws num_draws s =
    (inr r, mkState (<["card_draws" := r]> (results s)) (np_random s)
              deck.2 (display s)).
Proof.
  unfold simulate_card_draws. run.
  destruct (shuffle _ _) as [deck g]. simpl.
  by rewrite lookup_insert_eq.
Qed.

Lemma trials_run k both one raw s :
  let new := flips k (np_random s) in
  trials k both one raw s =
    (inr (both + count (λ p, p.1 = 1 ∧ p.2 = 1) new.1,
          one + count (λ p, p.1 = 1 ∨ p.2 = 1) new.1,
          raw ++ new.1),
     mkState (results s) new.2 (py_random s) (display s)).
Proof.
  revert both one raw s. induction k as [|k IH]; intros both one raw s.
  { simpl. run. rewrite !count_nil, !Z.add_0_r, app_nil_r. by destruct s. }
  simpl. run.
  destruct (randint 0 2 (np_random s)) as [flip1 g1]. simpl.
  destruct (randint 0 2 g1) as [flip2 g2]. simpl.
  rewrite IH. simpl. destruct (flips k g2) as [new g3]. simpl.
  rewrite !count_cons, <- app_assoc. simpl.
  do 2 f_equal.
  rewrite !(bool_decide_decide (_ ∧ _)), !(bool_decide_decide (_ ∨ _)).
  destruct (decide (flip1 = 1 ∧ flip2 = 1)),
    (decide (flip1 = 1 ∨ flip2 = 1)); do 2 f_equal; lia.
Qed.

Lemma simulate_compound_events_run num_trials s :
  let new := flips (Z.to_nat num_trials) (np_random s) in
  let one := count (λ p, p.1 = 1 ∨ p.2 = 1) new.1 in
  let r := CompoundEvents
             (Compound.mk (count (λ p, p.1 = 1 ∧ p.2 = 1) new.1) one
                (num_trials - one) new.1) in
  simulate_compound_events num_trials s =
    (inr r, mkState (<["compound_events" := r]> (results s)) new.2
              (py_random s) (display s)).
Proof.
  unfold simulate_compound_events. run. rewrite trials_run. simpl.
  by rewrite lookup_insert_eq.
Qed.

End Experiments.

(** ** Coin tosses and compound events *)

Section CoinAndCompound.
Context `{!NumpyRandom GN} `{!PyRandom GP}.
Implicit Types s : State GN GP.

(** C3. For every [num_tosses >= 0], [simulate_coin_tosses] returns a
    record, stored under ["coin_tosses"], with
    [heads + tails = num_tosses], [0 <= heads <= num_tosses],
    [len(raw_data) = num_tosses], every toss 0 or 1, and [heads] the
    number of ones in [raw_data]; for zero tosses the record is
    [heads = 0], [tails = 0], [raw_data = []]. *)
Theorem coin_tosses_invariant (num_tosses : Z) s :
  0 ≤ num_tosses →
  ∃ r s',
    simulate_coin_tosses num_tosses s = (inr (CoinTosses r), s') ∧
    results s' !! "coin_tosses" = Some (CoinTosses r) ∧
    Coin.heads r + Coin.tails r = num_tosses ∧
    0 ≤ Coin.heads r ≤ num_tosses ∧
    Z.of_nat (length (Coin.raw_data r)) = num_tosses ∧
    Forall (λ x, x = 0 ∨ x = 1) (Coin.raw_data r) ∧
    Coin.heads r = count (λ x, x = 1) (Coin.raw_data r) ∧
    (num_tosses = 0 → r = Coin.mk 0 0 []).
Proof.
  intros Hn. rewrite simulate_coin_tosses_run by done.
  pose proof (draw_many_length 0 2 (Z.to_nat num_tosses) (np_random s))
    as Hlen.
  pose proof (draw_many_range 0 2 (Z.to_nat num_tosses) (np_random s))
    as Hrange.
  destruct (draw_many 0 2 _ _) as [tosses g]. simpl in *.
  specialize (Hrange ltac:(lia)).
  pose proof (sum_bits tosses Hrange) as Hsum.
  pose proof (count_bounds (λ x, x = 1) tosses) as Hb.
  rewrite np_sum_py_sum, Hsum.
  eexists _, _. split; [reflexivity|]. simpl.
  split; [by rewrite lookup_insert_eq|].
  repeat split; try lia.
  - eapply Forall_impl; [exact Hrange|]. simpl. lia.
  - intros ->. destruct tosses; [done|simpl in Hlen; lia].
Qed.

(** C6. For every [num_trials >= 0], [simulate_compound_events] returns a
    record with [both_heads <= at_least_one_head],
    [at_least_one_head + neither_head = num_trials = len(raw_data)],
    [both_heads] the number of pairs (1, 1), [at_least_one_head] the
    number of pairs with a 1, and [neither_head] equal to
    [num_trials - at_least_one_head]. *)
Theorem compound_events_invariant (num_trials : Z) s :
  0 ≤ num_trials →
  ∃ r s',
    simulate_compound_events num_trials s = (inr (CompoundEvents r), s') ∧
    results s' !! "compound_events" = Some (CompoundEvents r) ∧
    Compound.both_heads r ≤ Compound.at_least_one_head r ∧
    Compound.at_least_one_head r + Compound.neither_head r = num_trials ∧
    Z.of_nat (length (Compound.raw_data r)) = num_trials ∧
    Forall (λ p, (p.1 = 0 ∨ p.1 = 1) ∧ (p.2 = 0 ∨ p.2 = 1))
      (Compound.raw_data r) ∧
    Compound.both_heads r =
      count (λ p, p.1 = 1 ∧ p.2 = 1) (Compound.raw_data r) ∧
    Compound.at_least_one_head r =
      count (λ p, p.1 = 1 ∨ p.2 = 1) (Compound.raw_data r) ∧
    Compound.neither_head r = num_trials - Compound.at_least_one_head r ∧
    0 ≤ Compound.neither_head r.
Proof.
  intros Hn. rewrite simulate_compound_events_run.
  pose proof (flips_length (Z.to_nat num_trials) (np_random s)) as Hlen.
  pose proof (flips_range (Z.to_nat num_trials) (np_random s)) as Hrange.
  destruct (flips _ _) as [raw g]. simpl in *.
  pose proof (count_bounds (λ p : Z * Z, p.1 = 1 ∨ p.2 = 1) raw) as Hb.
  eexists _, _. split; [reflexivity|]. simpl.
  split; [by rewrite lookup_insert_eq|].
  repeat split; try lia.
  - apply count_mono. tauto.
  - eapply Forall_impl; [exact Hrange|]. simpl. lia.
Qed.

End CoinAndCompound.

(** ** The deck and its slices *)

Lemma range_length a b : length (range a b) = Z.to_nat (b - a).
Proof. unfold range. by rewrite length_fmap, length_seq. Qed.

Lemma elem_of_range a b x : x ∈ range a b ↔ a ≤ x < b.
Proof.
  unfold range. rewrite list_elem_of_fmap. split.
  - intros (i & -> & Hi). apply elem_of_seq in Hi. lia.
  - intros Hx. exists (Z.to_nat (x - a)). split; [lia|].
    apply elem_of_seq. lia.
Qed.

Lemma range_NoDup a b : NoDup (range a b).
Proof.
  unfold range. apply NoDup_fmap_2; [|apply NoDup_seq].
  intros i j. lia.
Qed.

Lemma slice_to_within {A} (xs : list A) (n : Z) :
  0 ≤ n ≤ Z.of_nat (length xs) → slice_to xs n = take (Z.to_nat n) xs.
Proof.
  intros Hn. unfold slice_to.
  destruct (Z.ltb_spec n 0); [lia|]. f_equal. lia.
Qed.

Lemma slice_to_beyond {A} (xs : list A) (n : Z) :
  Z.of_nat (length xs) ≤ n → slice_to xs n = xs.
Proof.
  intros Hn. unfold slice_to.
  destruct (Z.ltb_spec n 0); [lia|]. apply take_ge. lia.
Qed.

Lemma slice_to_negative {A} (xs : list A) (n : Z) :
  n < 0 → slice_to xs n = take (length xs - Z.to_nat (- n)) xs.
Proof.
  intros Hn. unfold slice_to.
  destruct (Z.ltb_spec n 0); [|lia]. f_equal. lia.
Qed.

(** Half of the deck is red, however it is shuffled. *)
Lemma red_in_deck (deck : list Z) :
  deck ≡ₚ range 1 53 → count (λ card, card ≤ 26) deck = 26.
Proof. intros Hp. by rewrite (count_perm _ _ _ Hp). Qed.

Section Cards.
Context `{!NumpyRandom GN} `{!PyRandom GP}.
Implicit Types s : State GN GP.

(** C5. For every [0 <= num_draws <= 52], [simulate_card_draws] returns a
    record with [red + black = num_draws = len(raw_data)], whose
    [raw_data] is the first [num_draws] cards of a permutation of the deck
    1..52, hence pairwise distinct and within [1, 52], and whose [red] is
    the number of cards of [raw_data] in [1, 26]. *)
Theorem card_draws_invariant (num_draws : Z) s :
  0 ≤ num_draws ≤ 52 →
  ∃ r s',
    simulate_card_draws num_draws s = (inr (CardDraws r), s') ∧
    results s' !! "card_draws" = Some (CardDraws r) ∧
    Card.red r + Card.black r = num_draws ∧
    Z.of_nat (length (Card.raw_data r)) = num_draws ∧
    (∃ deck, deck ≡ₚ range 1 53 ∧
             Card.raw_data r = take (Z.to_nat num_draws) deck) ∧
    NoDup (Card.raw_data r) ∧
    Forall (λ card, 1 ≤ card ≤ 52) (Card.raw_data r) ∧
    Card.red r = count (λ card, 1 ≤ card ≤ 26) (Card.raw_data r) ∧
    0 ≤ Card.red r ∧ 0 ≤ Card.black r.
Proof.
  intros Hn. rewrite simulate_card_draws_run.
  pose proof (shuffle_perm (range 1 53) (py_random s)) as Hperm.
  destruct (shuffle _ _) as [deck g]. simpl in *.
  assert (Hlen : length deck = 52%nat).
  { by rewrite Hperm, range_length. }
  rewrite slice_to_within by lia.
  set (draws := take (Z.to_nat num_draws) deck).
  assert (Hsub : draws ⊆ deck).
  { intros x Hx. by apply (subseteq_take (Z.to_nat num_draws)). }
  assert (Hcards : Forall (λ card, 1 ≤ card ≤ 52) draws).
  { apply Forall_forall. intros x Hx%Hsub. rewrite Hperm in Hx.
    apply elem_of_range in Hx. lia. }
  rewrite py_sum_ones. fold (count (λ card, card ≤ 26) draws).
  pose proof (count_bounds (λ card, card ≤ 26) draws) as Hb.
  assert (Hdl : length draws = Z.to_nat num_draws).
  { unfold draws. rewrite length_take. lia. }
  eexists _, _. split; [reflexivity|]. simpl.
  split; [by rewrite lookup_insert_eq|].
  repeat split; try lia.
  - by exists deck.
  - assert (Hnd : NoDup deck) by (rewrite Hperm; apply range_NoDup).
    rewrite <- (take_drop (Z.to_nat num_draws) deck) in Hnd.
    by apply NoDup_app in Hnd as [? _].
  - done.
  - apply count_ext. eapply Forall_impl; [exact Hcards|]. simpl. lia.
Qed.

(** C10. For every [num_draws > 52], [simulate_card_draws] returns without
    raising: [raw_data] is the whole shuffled deck, of length 52, [red] is
    the number of its cards that are at most 26, which is 26, and
    [black = num_draws - red]; so [red + black = num_draws], which is not
    [len(raw_data)]. *)
Theorem card_draws_beyond_deck (num_draws : Z) s :
  52 < num_draws →
  ∃ r s',
    simulate_card_draws num_draws s = (inr (CardDraws r), s') ∧
    results s' !! "card_draws" = Some (CardDraws r) ∧
    Card.raw_data r = (shuffle (range 1 53) (py_random s)).1 ∧
    Card.raw_data r ≡ₚ range 1 53 ∧
    length (Card.raw_data r) = 52%nat ∧
    Card.red r = count (λ card, card ≤ 26) (Card.raw_data r) ∧
    Card.red r = 26 ∧
    Card.black r = num_draws - Card.red r ∧
    Card.red r + Card.black r = num_draws ∧
    Card.red r + Card.black r ≠ Z.of_nat (length (Card.raw_data r)).
Proof.
  intros Hn. rewrite simulate_card_draws_run.
  pose proof (shuffle_perm (range 1 53) (py_random s)) as Hperm.
  destruct (shuffle _ _) as [deck g]. simpl in *.
  assert (Hlen : length deck = 52%nat).
  { by rewrite Hperm, range_length. }
  rewrite slice_to_beyond by lia.
  rewrite py_sum_ones. fold (count (λ card, card ≤ 26) deck).
  pose proof (red_in_deck deck Hperm) as Hred.
  eexists _, _. split; [reflexivity|]. simpl.
  split; [by rewrite lookup_insert_eq|].
  repeat split; try done; lia.
Qed.

End Cards.

(** ** The tally of the die *)

Lemma get0_tally_step (c : gmap Z Z) (a x : Z) :
  get0 (<[a := default 0 (c !! a) + 1]> c) x =
  get0 c x + (if decide (a = x) then 1 else 0).
Proof.
  unfold get0. destruct (decide (a = x)) as [->|Hne].
  - by rewrite lookup_insert_eq.
  - rewrite lookup_insert_ne by done. lia.
Qed.

Lemma get0_tally (c : gmap Z Z) (xs : list Z) (x : Z) :
  get0 (foldl (λ c x, <[x := default 0 (c !! x) + 1]> c) c xs) x =
  get0 c x + count (λ y, y = x) xs.
Proof.
  revert c. induction xs as [|a xs IH]; intros c; simpl.
  { rewrite count_nil. lia. }
  rewrite IH, get0_tally_step, count_cons. lia.
Qed.

Lemma get0_Counter (xs : list Z) (x : Z) :
  get0 (Counter xs) x = count (λ y, y = x) xs.
Proof. unfold Counter. by rewrite get0_tally. Qed.

(** A face that was never rolled has no key in the bare tally. *)
Lemma Counter_unseen (xs : list Z) (x : Z) : x ∉ xs → Counter xs !! x = None.
Proof.
  unfold Counter. assert (Hc : (∅ : gmap Z Z) !! x = None) by done.
  revert Hc. generalize (∅ : gmap Z Z).
  induction xs as [|a xs IH]; intros c Hc Hx; simpl; [done|].
  apply not_elem_of_cons in Hx as [Hne Hx].
  apply IH; [|done]. by rewrite lookup_insert_ne.
Qed.

Lemma values_insert (d : gmap Z Z) (k v : Z) :
  d !! k = None → py_sum (values (<[k := v]> d)) = v + py_sum (values d).
Proof.
  intros Hk. unfold values.
  rewrite (py_sum_perm _ (v :: (map_to_list d).*2)).
  - by rewrite py_sum_cons.
  - by rewrite map_to_list_insert.
Qed.

(** Every roll shows one of the six faces, so the six counts add up to the
    number of rolls. *)
Lemma count_faces (xs : list Z) :
  Forall (λ x, 1 ≤ x < 7) xs →
  count (λ y, y = 1) xs + count (λ y, y = 2) xs + count (λ y, y = 3) xs
  + count (λ y, y = 4) xs + count (λ y, y = 5) xs + count (λ y, y = 6) xs
  = Z.of_nat (length xs).
Proof.
  induction 1 as [|x xs Hx _ IH]; [done|].
  rewrite !count_cons. simpl length. repeat case_decide; lia.
Qed.

Section DieTally.
Context `{!NumpyRandom GN} `{!PyRandom GP}.
Implicit Types s : State GN GP.

(** C4. For every [num_rolls >= 0], [simulate_die_rolls] returns a counts
    mapping whose keys are exactly 1..6, each face with the number of times
    it occurs in [raw_data] (zero included), with
    [sum(counts.values()) = num_rolls = len(raw_data)] and every element of
    [raw_data] in [1, 6]. *)
Theorem die_rolls_invariant (num_rolls : Z) s :
  0 ≤ num_rolls →
  ∃ r s',
    simulate_die_rolls num_rolls s = (inr (DieRolls r), s') ∧
    results s' !! "die_rolls" = Some (DieRolls r) ∧
    dom (Die.counts r) = ({[1; 2; 3; 4; 5; 6]} : gset Z) ∧
    (∀ face, 1 ≤ face ≤ 6 →
       Die.counts r !! face =
         Some (count (λ x, x = face) (Die.raw_data r))) ∧
    py_sum (values (Die.counts r)) = num_rolls ∧
    Z.of_nat (length (Die.raw_data r)) = num_rolls ∧
    Forall (λ x, 1 ≤ x ≤ 6) (Die.raw_data r).
Proof.
  intros Hn. rewrite simulate_die_rolls_run by done.
  change (range 1 7) with [1; 2; 3; 4; 5; 6].
  pose proof (draw_many_length 1 7 (Z.to_nat num_rolls) (np_random s))
    as Hlen.
  pose proof (draw_many_range 1 7 (Z.to_nat num_rolls) (np_random s))
    as Hrange.
  destruct (draw_many 1 7 _ _) as [rolls g]. simpl in *.
  specialize (Hrange ltac:(lia)).
  eexists _, _. split; [reflexivity|]. simpl.
  split; [by rewrite lookup_insert_eq|].
  rewrite !get0_Counter.
  split; [|split; [|split; [|split]]].
  - rewrite !dom_insert_L, dom_empty_L. set_solver.
  - intros face Hface.
    assert (face = 1 ∨ face = 2 ∨ face = 3 ∨ face = 4 ∨ face = 5 ∨ face = 6)
      as Hcases by lia.
    destruct Hcases as [->|[->|[->|[->|[->| ->]]]]]; by simplify_map_eq.
  - rewrite !values_insert by by simplify_map_eq.
    unfold values. rewrite map_to_list_empty. simpl.
    pose proof (count_faces rolls Hrange). unfold py_sum. simpl. lia.
  - lia.
  - eapply Forall_impl; [exact Hrange|]. simpl. lia.
Qed.

End DieTally.

(** ** The session: stored results and their presentation *)

Lemma key_inj (e1 e2 : experiment) : key e1 = key e2 → e1 = e2.
Proof. by destruct e1, e2. Qed.

Section Session.
Context `{!NumpyRandom GN} `{!PyRandom GP}.
Implicit Types s : State GN GP.


(** C7. In every state with no result stored for an experiment, the
    presentation of that experiment prints that no simulation has been run
    yet and returns normally: nothing is raised, and nothing else is
    changed. *)
Theorem plot_nothing_to_show (e : experiment) s :
  results s !! key e = None →
  plot e s = (inr (), shown s (Print (nothing_to_show e))).
Proof.
  intros Hnone.
  destruct e; simpl in *;
    unfold plot_coin_tosses, plot_die_rolls, plot_card_draws,
      plot_compound_events; run; by rewrite Hnone.
Qed.



(** C9. The record an experiment returns, and the generators it leaves
    behind, depend on the trial count and on the two generators only: two
    runs from the same generator states agree, whatever else the two
    sessions hold. *)
Theorem simulate_deterministic (e : experiment) (n : Z) s1 s2 :
  np_random s1 = np_random s2 →
  py_random s1 = py_random s2 →
  (simulate e n s1).1 = (simulate e n s2).1 ∧
  np_random (simulate e n s1).2 = np_random (simulate e n s2).2 ∧
  py_random (simulate e n s1).2 = py_random (simulate e n s2).2.
Proof.
  intros Hnp Hpy. destruct e; simpl.
  - destruct (Z.lt_ge_cases n 0) as [Hn|Hn].
    + by rewrite !simulate_coin_tosses_negative.
    + rewrite !simulate_coin_tosses_run by done. simpl.
      by rewrite Hnp, Hpy.
  - destruct (Z.lt_ge_cases n 0) as [Hn|Hn].
    + by rewrite !simulate_die_rolls_negative.
    + rewrite !simulate_die_rolls_run by done. simpl.
      by rewrite Hnp, Hpy.
  - rewrite !simulate_card_draws_run. simpl. by rewrite Hnp, Hpy.
  - rewrite !simulate_compound_events_run. simpl. by rewrite Hnp, Hpy.
Qed.

End Session.

(** ** Outside the contract: invalid counts and empty totals *)

Section Unguarded.
Context `{!NumpyRandom GN} `{!PyRandom GP}.
Implicit Types s : State GN GP.

(** C1, as the code has it. Only the two experiments that sample an array
    refuse a negative count: [simulate_coin_tosses] and
    [simulate_die_rolls] raise [ValueError] and leave the session as it
    was. [simulate_card_draws] and [simulate_compound_events] check
    nothing and return a record for an invalid count: the card draw keeps
    the slice [deck[:num_draws]] of the shuffled deck, counts [red] on it
    and sets [black = num_draws - red]; the compound event runs no trial
    and returns zero counters, no flips and [neither_head = num_trials]. *)
Theorem invalid_count_outcome (e : experiment) (n : Z) s :
  invalid e n →
  match e with
  | coin_tosses | die_rolls => simulate e n s = (inl ValueError, s)
  | card_draws =>
      ∃ r s',
        simulate e n s = (inr (CardDraws r), s') ∧
        results s' !! key e = Some (CardDraws r) ∧
        Card.raw_data r =
          slice_to (shuffle (range 1 53) (py_random s)).1 n ∧
        Card.red r = count (λ card, card ≤ 26) (Card.raw_data r) ∧
        Card.black r = n - Card.red r ∧
        Z.of_nat (length (Card.raw_data r)) = (if n <? 0 then Z.max 0 (52 + n) else 52) ∧
        Card.red r + Card.black r ≠ Z.of_nat (length (Card.raw_data r))
  | compound_events =>
      ∃ s',
        simulate e n s = (inr (CompoundEvents (Compound.mk 0 0 n [])), s') ∧
        results s' !! key e = Some (CompoundEvents (Compound.mk 0 0 n []))
  end.
Proof.
  intros Hinv. destruct e; simpl.
  - destruct Hinv as [Hn|[? _]]; [|done].
    by apply simulate_coin_tosses_negative.
  - destruct Hinv as [Hn|[? _]]; [|done].
    by apply simulate_die_rolls_negative.
  - rewrite simulate_card_draws_run.
    pose proof (shuffle_perm (range 1 53) (py_random s)) as Hperm.
    destruct (shuffle _ _) as [deck g]. simpl in *.
    assert (Hlen : length deck = 52%nat).
    { by rewrite Hperm, range_length. }
    rewrite py_sum_ones. fold (count (λ card, card ≤ 26) (slice_to deck n)).
    assert (Hsl : Z.of_nat (length (slice_to deck n)) =
                  if n <? 0 then Z.max 0 (52 + n) else 52).
    { destruct (Z.ltb_spec n 0).
      - rewrite slice_to_negative, length_take by done. lia.
      - rewrite slice_to_beyond by (destruct Hinv as [?|[_ ?]]; lia). lia. }
    eexists _, _. split; [reflexivity|]. simpl.
    split; [by rewrite lookup_insert_eq|].
    repeat split; try done.
    rewrite Hsl. destruct Hinv as [?|[_ ?]], (Z.ltb_spec n 0); lia.
  - destruct Hinv as [Hn|[? _]]; [|done].
    rewrite simulate_compound_events_run.
    replace (Z.to_nat n) with 0%nat by lia. simpl.
    rewrite count_nil, Z.sub_0_r.
    eexists. split; [reflexivity|]. simpl. by rewrite lookup_insert_eq.
Qed.

(** C2, as the code has it. No presentation guards its denominator. When
    the stored record of an experiment has a zero total, [plot_card_draws]
    and [plot_compound_events] raise [ZeroDivisionError] and show nothing;
    [plot_coin_tosses], whose counts are NumPy integers, divides by the
    zero total and shows the figure with a probability that is not a
    finite number ([nan] when [heads] is zero, as after a run of zero
    tosses); [plot_die_rolls] divides the total by 6 and shows its
    figure. *)
Theorem zero_total_presentation (r : Result) s :
  results s !! key (shape r) = Some r →
  total r = 0 →
  match r with
  | CoinTosses c =>
      ∃ p,
        plot coin_tosses s =
          (inr (),
           shown s (Figure (Some 0)
                      [[(Name "Heads", Coin.heads c);
                        (Name "Tails", Coin.tails c)]]
                      [("Probability of Heads: ", p)])) ∧
        p = np_truediv (Coin.heads c) 0 ∧
        is_finite p = false ∧
        (Coin.heads c = 0 → p = nan)
  | DieRolls d =>
      ∃ plots,
        plot die_rolls s =
          (inr (),
           shown s (Figure None plots
                      [("Expected frequency for each face: ", quot 0 6)]))
  | CardDraws _ => plot card_draws s = (inl ZeroDivisionError, s)
  | CompoundEvents _ => plot compound_events s = (inl ZeroDivisionError, s)
  end.
Proof.
  intros Hstored Htotal.
  destruct r as [c|d|c|c]; simpl in *;
    unfold plot_coin_tosses, plot_die_rolls, plot_card_draws,
      plot_compound_events; run; repeat (rewrite Hstored; simpl).
  - rewrite Htotal.
    replace (Coin.heads c + Coin.tails c) with 0
      by (unfold py_sum in Htotal; simpl in Htotal; lia).
    eexists. split; [reflexivity|]. split; [done|].
    unfold np_truediv. simpl. split.
    + by repeat case_match.
    + by intros ->.
  - rewrite Htotal. simpl. by eexists.
  - by rewrite Htotal.
  - by rewrite Htotal.
Qed.

End Unguarded.

(** A run of zero trials stores a record whose total is zero. *)
Lemma zero_trials_total `{!NumpyRandom GN} `{!PyRandom GP}
    (e : experiment) (s : State GN GP) :
  ∃ r, (simulate e 0 s).1 = inr r ∧ shape r = e ∧
       results (simulate e 0 s).2 !! key e = Some r ∧ total r = 0.
Proof.
  destruct e; simpl.
  - rewrite simulate_coin_tosses_run by done. simpl.
    eexists. split; [reflexivity|]. by rewrite lookup_insert_eq.
  - rewrite simulate_die_rolls_run by done. simpl.
    eexists. split; [reflexivity|]. rewrite lookup_insert_eq.
    split; [done|]. split; [done|]. simpl.
    change (range 1 7) with [1; 2; 3; 4; 5; 6]. simpl.
    rewrite !values_insert by by simplify_map_eq. done.
  - rewrite simulate_card_draws_run. simpl.
    destruct (shuffle _ _) as [deck g]. simpl.
    eexists. split; [reflexivity|]. rewrite lookup_insert_eq.
    split; [done|]. split; [done|]. simpl.
    generalize (py_sum ((λ _, 1) <$> filter (λ card, card ≤ 26)
                          (slice_to deck 0))).
    intros red. unfold py_sum. simpl. lia.
  - rewrite simulate_compound_events_run. simpl.
    eexists. split; [reflexivity|]. by rewrite lookup_insert_eq.
Qed.

(** ** The theorems at work on the concrete generator *)

Lemma coin_tosses_invariant_witness :
  0 ≤ 10 ∧
  ∃ r s',
    simulate_coin_tosses 10 (seeded 42 7) = (inr (CoinTosses r), s') ∧
    results s' !! "coin_tosses" = Some (CoinTosses r) ∧
    Coin.heads r + Coin.tails r = 10 ∧
    0 ≤ Coin.heads r ≤ 10 ∧
    Z.of_nat (length (Coin.raw_data r)) = 10 ∧
    Forall (λ x, x = 0 ∨ x = 1) (Coin.raw_data r) ∧
    Coin.heads r = count (λ x, x = 1) (Coin.raw_data r) ∧
    (10 = 0 → r = Coin.mk 0 0 []).
Proof.
  split; [lia | apply (coin_tosses_invariant 10 (seeded 42 7)); lia].
Defined.

Lemma die_rolls_invariant_witness :
  0 ≤ 10 ∧
  ∃ r s',
    simulate_die_rolls 10 (seeded 42 7) = (inr (DieRolls r), s') ∧
    results s' !! "die_rolls" = Some (DieRolls r) ∧
    dom (Die.counts r) = ({[1; 2; 3; 4; 5; 6]} : gset Z) ∧
    (∀ face, 1 ≤ face ≤ 6 →
       Die.counts r !! face =
         Some (count (λ x, x = face) (Die.raw_data r))) ∧
    py_sum (values (Die.counts r)) = 10 ∧
    Z.of_nat (length (Die.raw_data r)) = 10 ∧
    Forall (λ x, 1 ≤ x ≤ 6) (Die.raw_data r).
Proof.
  split; [lia | apply (die_rolls_invariant 10 (seeded 42 7)); lia].
Defined.

Lemma card_draws_invariant_witness :
  0 ≤ 5 ≤ 52 ∧
  ∃ r s',
    simulate_card_draws 5 (seeded 42 7) = (inr (CardDraws r), s') ∧
    results s' !! "card_draws" = Some (CardDraws r) ∧
    Card.red r + Card.black r = 5 ∧
    Z.of_nat (length (Card.raw_data r)) = 5 ∧
    (∃ deck, deck ≡ₚ range 1 53 ∧ Card.raw_data r = take (Z.to_nat 5) deck) ∧
    NoDup (Card.raw_data r) ∧
    Forall (λ card, 1 ≤ card ≤ 52) (Card.raw_data r) ∧
    Card.red r = count (λ card, 1 ≤ card ≤ 26) (Card.raw_data r) ∧
    0 ≤ Card.red r ∧ 0 ≤ Card.black r.
Proof.
  split; [lia | apply (card_draws_invariant 5 (seeded 42 7)); lia].
Defined.

Lemma compound_events_invariant_witness :
  0 ≤ 4 ∧
  ∃ r s',
    simulate_compound_events 4 (seeded 42 7) = (inr (CompoundEvents r), s') ∧
    results s' !! "compound_events" = Some (CompoundEvents r) ∧
    Compound.both_heads r ≤ Compound.at_least_one_head r ∧
    Compound.at_least_one_head r + Compound.neither_head r = 4 ∧
    Z.of_nat (length (Compound.raw_data r)) = 4 ∧
    Forall (λ p, (p.1 = 0 ∨ p.1 = 1) ∧ (p.2 = 0 ∨ p.2 = 1))
      (Compound.raw_data r) ∧
    Compound.both_heads r =
      count (λ p, p.1 = 1 ∧ p.2 = 1) (Compound.raw_data r) ∧
    Compound.at_least_one_head r =
      count (λ p, p.1 = 1 ∨ p.2 = 1) (Compound.raw_data r) ∧
    Compound.neither_head r = 4 - Compound.at_least_one_head r ∧
    0 ≤ Compound.neither_head r.
Proof.
  split; [lia | apply (compound_events_invariant 4 (seeded 42 7)); lia].
Defined.

Lemma card_draws_beyond_deck_witness :
  52 < 53 ∧
  ∃ r s',
    simulate_card_draws 53 (seeded 42 7) = (inr (CardDraws r), s') ∧
    results s' !! "card_draws" = Some (CardDraws r) ∧
    Card.raw_data r = (shuffle (range 1 53) (py_random (seeded 42 7))).1 ∧
    Card.raw_data r ≡ₚ range 1 53 ∧
    length (Card.raw_data r) = 52%nat ∧
    Card.red r = count (λ card, card ≤ 26) (Card.raw_data r) ∧
    Card.red r = 26 ∧
    Card.black r = 53 - Card.red r ∧
    Card.red r + Card.black r = 53 ∧
    Card.red r + Card.black r ≠ Z.of_nat (length (Card.raw_data r)).
Proof.
  split; [lia | apply (card_draws_beyond_deck 53 (seeded 42 7)); lia].
Defined.

Lemma plot_nothing_to_show_witness :
  results (seeded 42 7) !! key die_rolls = None ∧
  plot die_rolls (seeded 42 7) =
    (inr (), shown (seeded 42 7)
               (Print "No die roll simulation has been run yet.")).
Proof.
  split; [reflexivity | apply (plot_nothing_to_show die_rolls (seeded 42 7))].
  reflexivity.
Defined.

Lemma simulate_deterministic_witness :
  np_random (seeded 42 7) = np_random busy_session ∧
  py_random (seeded 42 7) = py_random busy_session ∧
  (simulate card_draws 5 (seeded 42 7)).1 =
    (simulate card_draws 5 busy_session).1 ∧
  np_random (simulate card_draws 5 (seeded 42 7)).2 =
    np_random (simulate card_draws 5 busy_session).2 ∧
  py_random (simulate card_draws 5 (seeded 42 7)).2 =
    py_random (simulate card_draws 5 busy_session).2.
Proof.
  split; [reflexivity|]. split; [reflexivity|].
  apply (simulate_deterministic card_draws 5 (seeded 42 7) busy_session);
    reflexivity.
Defined.



Lemma invalid_count_outcome_witness :
  invalid compound_events (-3) ∧
  ∃ s',
    simulate compound_events (-3) (seeded 42 7) =
      (inr (CompoundEvents (Compound.mk 0 0 (-3) [])), s') ∧
    results s' !! key compound_events =
      Some (CompoundEvents (Compound.mk 0 0 (-3) [])).
Proof.
  split; [left; lia|].
  apply (invalid_count_outcome compound_events (-3) (seeded 42 7)).
  left; lia.
Defined.

(** C1 fails on the code: a draw of 53 cards is not refused; it returns the
    52 cards of the deck with [red = 26] and [black = 27]. A compound
    event of -1 trials is not refused either and returns
    [neither_head = -1]. *)
Lemma invalid_count_accepted :
  invalid card_draws 53 ∧
  (∃ r, (simulate card_draws 53 (seeded 42 7)).1 = inr (CardDraws r) ∧
        Card.red r = 26 ∧ Card.black r = 27 ∧
        length (Card.raw_data r) = 52%nat) ∧
  invalid compound_events (-1) ∧
  (simulate compound_events (-1) (seeded 42 7)).1 =
    inr (CompoundEvents (Compound.mk 0 0 (-1) [])).
Proof.
  split; [right; split; [done|lia]|].
  split; [|split; [left; lia | by vm_compute]].
  vm_compute. eexists. by split; [reflexivity|].
Qed.

Lemma zero_total_presentation_witness :
  results no_draws !! key (shape (CardDraws (Card.mk 0 0 []))) =
    Some (CardDraws (Card.mk 0 0 [])) ∧
  total (CardDraws (Card.mk 0 0 [])) = 0 ∧
  plot card_draws no_draws = (inl ZeroDivisionError, no_draws).
Proof.
  split; [by vm_compute|]. split; [reflexivity|].
  apply (zero_total_presentation (CardDraws (Card.mk 0 0 [])) no_draws);
    by vm_compute.
Defined.

(** C2 fails on the code: after zero draws, and after zero trials of the
    compound event, the presentation raises [ZeroDivisionError]; after
    zero tosses it shows [nan] as the probability of heads. *)
Lemma zero_total_division :
  (plot card_draws (simulate card_draws 0 (seeded 42 7)).2).1 =
    inl ZeroDivisionError ∧
  (plot compound_events (simulate compound_events 0 (seeded 42 7)).2).1 =
    inl ZeroDivisionError ∧
  display (plot coin_tosses (simulate coin_tosses 0 (seeded 42 7)).2).2 =
    [Figure (Some 0) [[(Name "Heads", 0); (Name "Tails", 0)]]
       [("Probability of Heads: ", nan)]].
Proof. by vm_compute. Qed.

(** ** Presentation of a stored record *)

Ltac plot_run :=
  unfold plot_coin_tosses, plot_die_rolls, plot_card_draws,
    plot_compound_events; run.

Section Presentation.
Context `{!NumpyRandom GN} `{!PyRandom GP}.
Implicit Types s : State GN GP.

Lemma plot_coin_tosses_stored (c : Coin.t) s :
  results s !! "coin_tosses" = Some (CoinTosses c) →
  plot_coin_tosses s =
    (inr (),
     shown s (Figure (Some (Coin.heads c + Coin.tails c))
                [[(Name "Heads", Coin.heads c); (Name "Tails", Coin.tails c)]]
                [("Probability of Heads: ",
                  np_truediv (Coin.heads c)
                    (Coin.heads c + Coin.tails c))])).
Proof. intros Hs. plot_run. by repeat (rewrite Hs; simpl). Qed.

Lemma plot_die_rolls_stored (d : Die.t) s :
  results s !! "die_rolls" = Some (DieRolls d) →
  plot_die_rolls s =
    (inr (),
     shown s (Figure None
                [zip (Face <$> keys (Die.counts d)) (values (Die.counts d))]
                [("Expected frequency for each face: ",
                  quot (py_sum (values (Die.counts d))) 6)])).
Proof. intros Hs. plot_run. by repeat (rewrite Hs; simpl). Qed.

Lemma plot_card_draws_stored (c : Card.t) s :
  results s !! "card_draws" = Some (CardDraws c) →
  plot_card_draws s =
    if Card.red c + Card.black c =? 0 then (inl ZeroDivisionError, s)
    else
      (inr (),
       shown s (Figure (Some (Card.red c + Card.black c))
                  [[(Name "Red Cards", Card.red c);
                    (Name "Black Cards", Card.black c)]]
                  [("Probability of Red Card: ",
                    quot (Card.red c) (Card.red c + Card.black c))])).
Proof.
  intros Hs. plot_run. repeat (rewrite Hs; simpl).
  unfold py_truediv, py_sum. simpl. rewrite !Z.add_0_l.
  by destruct (_ =? _).
Qed.

Lemma plot_compound_events_stored (c : Compound.t) s :
  results s !! "compound_events" = Some (CompoundEvents c) →
  let both := Compound.both_heads c in
  let one := Compound.at_least_one_head c in
  let none := Compound.neither_head c in
  plot_compound_events s =
    if both + (one - both + none) =? 0 then (inl ZeroDivisionError, s)
    else
      (inr (),
       shown s (Figure None
                  [[(Name "Both Heads", both);
                    (Name "Not Both Heads", one - both + none)];
                   [(Name "At Least One Head", one); (Name "No Heads", none)]]
                  [("P(Both Heads): ", quot both (both + (one - both + none)));
                   ("P(At Least One Head): ",
                    quot one (both + (one - both + none)))])).
Proof.
  intros Hs. plot_run. repeat (rewrite Hs; simpl).
  unfold py_truediv, py_sum. simpl. rewrite !Z.add_0_l.
  by destruct (_ =? _).
Qed.

(** A record of another experiment under the key makes the subscript of
    its fields fail. *)
Lemma plot_misplaced (e : experiment) (r : Result) s :
  results s !! key e = Some r → shape r ≠ e →
  plot e s = (inl KeyError, s).
Proof.
  intros Hs Hne.
  destruct e, r; simpl in *; try done; plot_run;
    by repeat (rewrite Hs; simpl).
Qed.

(** X1. A presentation reads the session and never writes it: whether it
    returns or raises, the stored results and both generators are as
    before. *)
Theorem plot_reads_only (e : experiment) s :
  results (plot e s).2 = results s ∧
  np_random (plot e s).2 = np_random s ∧
  py_random (plot e s).2 = py_random s.
Proof.
  destruct (results s !! key e) as [r|] eqn:Hs.
  2:{ by rewrite plot_nothing_to_show. }
  destruct (decide (shape r = e)) as [<-|Hne].
  2:{ by rewrite (plot_misplaced e r). }
  destruct r as [c|d|c|c]; simpl in *.
  - by rewrite (plot_coin_tosses_stored c).
  - by rewrite (plot_die_rolls_stored d).
  - rewrite (plot_card_draws_stored c) by done. by case_match.
  - rewrite (plot_compound_events_stored c) by done. simpl. by case_match.
Qed.

End Presentation.

(** ** An experiment followed by its presentation *)

Lemma zip_keys_values (d : gmap Z Z) :
  zip (Face <$> keys d) (values d) =
  (λ kv, (Face kv.1, kv.2)) <$> map_to_list d.
Proof.
  unfold keys, values. induction (map_to_list d) as [|[k v] l IH]; [done|].
  csimpl. by rewrite IH.
Qed.

Section Presented.
Context `{!NumpyRandom GN} `{!PyRandom GP}.
Implicit Types s : State GN GP.

(** X2. After [simulate_coin_tosses(n)] with [n >= 0] the presentation
    never raises: it shows one figure titled with [n], the bars [heads] and
    [n - heads] with [0 <= heads <= n], and the probability
    [heads / n], which is [nan] exactly when [n = 0]. *)
Theorem coin_tosses_presented (n : Z) s :
  0 ≤ n →
  ∃ r s1,
    simulate_coin_tosses n s = (inr (CoinTosses r), s1) ∧
    0 ≤ Coin.heads r ≤ n ∧
    plot_coin_tosses s1 =
      (inr (),
       shown s1 (Figure (Some n)
                   [[(Name "Heads", Coin.heads r);
                     (Name "Tails", n - Coin.heads r)]]
                   [("Probability of Heads: ",
                     if n =? 0 then nan else quot (Coin.heads r) n)])).
Proof.
  intros Hn. rewrite simulate_coin_tosses_run by done.
  pose proof (draw_many_length 0 2 (Z.to_nat n) (np_random s)) as Hlen.
  pose proof (draw_many_range 0 2 (Z.to_nat n) (np_random s)) as Hrange.
  destruct (draw_many 0 2 _ _) as [tosses g]. simpl in *.
  specialize (Hrange ltac:(lia)).
  pose proof (sum_bits tosses Hrange) as Hsum.
  pose proof (count_bounds (λ x, x = 1) tosses) as Hb.
  rewrite np_sum_py_sum.
  eexists _, _. split; [reflexivity|]. simpl. split; [lia|].
  erewrite plot_coin_tosses_stored by (simpl; apply lookup_insert_eq).
  simpl. replace (py_sum tosses + (n - py_sum tosses)) with n by lia.
  do 5 f_equal. unfold np_truediv.
  destruct (Z.eqb_spec n 0) as [->|]; [|done].
  by replace (py_sum tosses) with 0 by lia.
Qed.

(** X3. After [simulate_card_draws(n)], for every [n] in the 64-bit
    range, the presentation raises [ZeroDivisionError] exactly when
    [n = 0]; otherwise it builds the figure titled with [n] (also when
    fewer than [n] cards were drawn), with the bars [red] and [n - red]
    and the probability [red / n]. *)
Theorem card_draws_presented (n : Z) s :
  int64 n = true →
  ∃ r s1,
    simulate_card_draws n s = (inr (CardDraws r), s1) ∧
    plot_card_draws s1 =
      if n =? 0 then (inl ZeroDivisionError, s1)
      else
        (inr (),
         shown s1 (Figure (Some n)
                     [[(Name "Red Cards", Card.red r);
                       (Name "Black Cards", n - Card.red r)]]
                     [("Probability of Red Card: ", quot (Card.red r) n)])).
Proof.
  intros _. rewrite simulate_card_draws_run.
  destruct (shuffle _ _) as [deck g]. simpl.
  eexists _, _. split; [reflexivity|].
  erewrite plot_card_draws_stored by (simpl; apply lookup_insert_eq).
  simpl. set (red := py_sum _).
  by replace (red + (n - red)) with n by lia.
Qed.

(** X4. After [simulate_compound_events(n)], for every [n] in the 64-bit
    range, the presentation raises [ZeroDivisionError] exactly when
    [n = 0]; otherwise it builds the figure with the bars [both_heads]
    against [n - both_heads] and [at_least_one_head] against
    [n - at_least_one_head], and the probabilities [both_heads / n] and
    [at_least_one_head / n]. *)
Theorem compound_events_presented (n : Z) s :
  int64 n = true →
  ∃ r s1,
    simulate_compound_events n s = (inr (CompoundEvents r), s1) ∧
    let both := Compound.both_heads r in
    let one := Compound.at_least_one_head r in
    plot_compound_events s1 =
      if n =? 0 then (inl ZeroDivisionError, s1)
      else
        (inr (),
         shown s1 (Figure None
                     [[(Name "Both Heads", both);
                       (Name "Not Both Heads", n - both)];
                      [(Name "At Least One Head", one);
                       (Name "No Heads", n - one)]]
                     [("P(Both Heads): ", quot both n);
                      ("P(At Least One Head): ", quot one n)])).
Proof.
  intros _. rewrite simulate_compound_events_run.
  destruct (flips _ _) as [raw g]. simpl.
  eexists _, _. split; [reflexivity|].
  erewrite plot_compound_events_stored by (simpl; apply lookup_insert_eq).
  simpl. set (both := count _ raw). set (one := count _ raw).
  replace (both + (one - both + (n - one))) with n by lia.
  by replace (one - both + (n - one)) with (n - both) by lia.
Qed.

(** X5. After [simulate_die_rolls(n)] with [n >= 0] the presentation never
    raises: it shows one figure with one bar per face 1..6, each with the
    number of times the face occurs in [raw_data], and the expected
    frequency [n / 6]. *)
Theorem die_rolls_presented (n : Z) s :
  0 ≤ n →
  ∃ r s1 plotted,
    simulate_die_rolls n s = (inr (DieRolls r), s1) ∧
    plot_die_rolls s1 =
      (inr (),
       shown s1 (Figure None [plotted]
                   [("Expected frequency for each face: ", quot n 6)])) ∧
    plotted ≡ₚ
      (λ face, (Face face, count (λ x, x = face) (Die.raw_data r)))
        <$> [1; 2; 3; 4; 5; 6].
Proof.
  intros Hn. rewrite simulate_die_rolls_run by done.
  change (range 1 7) with [1; 2; 3; 4; 5; 6].
  pose proof (draw_many_length 1 7 (Z.to_nat n) (np_random s)) as Hlen.
  pose proof (draw_many_range 1 7 (Z.to_nat n) (np_random s)) as Hrange.
  destruct (draw_many 1 7 _ _) as [rolls g]. simpl in *.
  specialize (Hrange ltac:(lia)).
  eexists _, _, _. split; [reflexivity|].
  erewrite plot_die_rolls_stored by (simpl; apply lookup_insert_eq).
  simpl. rewrite !get0_Counter, zip_keys_values.
  split.
  - do 5 f_equal. rewrite !values_insert by by simplify_map_eq.
    unfold values. rewrite map_to_list_empty.
    pose proof (count_faces rolls Hrange). unfold py_sum. simpl.
    f_equal. lia.
  - rewrite !map_to_list_insert by by simplify_map_eq.
    rewrite map_to_list_empty. simpl. symmetry.
    apply (Permutation_rev
             [(Face 1, _); (Face 2, _); (Face 3, _); (Face 4, _);
              (Face 5, _); (Face 6, _)]).
Qed.

End Presented.

(** ** The whole run *)

Section RunAll.
Context `{!NumpyRandom GN} `{!PyRandom GP}.
Implicit Types s : State GN GP.

Lemma bind_returns {A B} (m : M GN GP A) (f : A → M GN GP B) s a s1 :
  m s = (inr a, s1) → (m ≫= f) s = f a s1.
Proof. intros Hm. unfold mbind, M_bind. by rewrite Hm. Qed.

Lemma bind_raises {A B} (m : M GN GP A) (f : A → M GN GP B) s e s1 :
  m s = (inl e, s1) → (m ≫= f) s = (inl e, s1).
Proof. intros Hm. unfold mbind, M_bind. by rewrite Hm. Qed.

Lemma emit_bind {B} (o : Output) (f : unit → M GN GP B) s :
  (emit o ≫= f) s = f () (shown s o).
Proof. reflexivity. Qed.

(** The whole run from any state of the model. *)
Lemma run_all_simulations_run s :
  ∃ c d k v plotted g_np g_py,
    run_all_simulations s =
      (inr (),
       mkState
         (<["compound_events" := CompoundEvents v]>
            (<["card_draws" := CardDraws k]>
               (<["die_rolls" := DieRolls d]>
                  (<["coin_tosses" := CoinTosses c]> (results s)))))
         g_np g_py
         (display s ++
            [Print "Running coin toss simulation...";
             Figure (Some 100)
               [[(Name "Heads", Coin.heads c); (Name "Tails", Coin.tails c)]]
               [("Probability of Heads: ", quot (Coin.heads c) 100)];
             Print ""; Print "Running die roll simulation...";
             Figure None [plotted]
               [("Expected frequency for each face: ", quot 60 6)];
             Print ""; Print "Running card draw simulation...";
             Figure (Some 20)
               [[(Name "Red Cards", Card.red k);
                 (Name "Black Cards", Card.black k)]]
               [("Probability of Red Card: ", quot (Card.red k) 20)];
             Print ""; Print "Running compound event simulation...";
             Figure None
               [[(Name "Both Heads", Compound.both_heads v);
                 (Name "Not Both Heads", 50 - Compound.both_heads v)];
                [(Name "At Least One Head", Compound.at_least_one_head v);
                 (Name "No Heads", Compound.neither_head v)]]
               [("P(Both Heads): ", quot (Compound.both_heads v) 50);
                ("P(At Least One Head): ",
                 quot (Compound.at_least_one_head v) 50)]])) ∧
    plotted ≡ₚ
      (λ face, (Face face, count (λ x, x = face) (Die.raw_data d)))
        <$> [1; 2; 3; 4; 5; 6] ∧
    (Coin.heads c + Coin.tails c = 100 ∧
     length (Coin.raw_data c) = 100%nat) ∧
    length (Die.raw_data d) = 60%nat ∧
    (Card.red k + Card.black k = 20 ∧ length (Card.raw_data k) = 20%nat) ∧
    (Compound.at_least_one_head v + Compound.neither_head v = 50 ∧
     length (Compound.raw_data v) = 50%nat).
Proof.
  destruct (run_all_simulations s) as [out s'] eqn:Hrun.
  unfold run_all_simulations in Hrun.
  (* coin tosses *)
  rewrite emit_bind in Hrun. set (s0 := shown s _) in Hrun.
  pose proof (simulate_coin_tosses_run 100 s0 ltac:(lia)) as H1.
  pose proof (draw_many_length 0 2 (Z.to_nat 100) (np_random s0)) as L1.
  cbv zeta in H1.
  destruct (draw_many 0 2 (Z.to_nat 100) (np_random s0)) as [tosses g1].
  cbn [fst snd] in H1, L1.
  set (c := Coin.mk _ _ tosses) in H1.
  assert (T1 : Coin.heads c + Coin.tails c = 100)
    by (unfold c; cbn [Coin.heads Coin.tails]; lia).
  rewrite (bind_returns _ _ _ _ _ H1) in Hrun; clear H1.
  erewrite (bind_returns plot_coin_tosses) in Hrun
    by (apply plot_coin_tosses_stored; apply lookup_insert_eq).
  rewrite T1 in Hrun.
  change (np_truediv (Coin.heads c) 100) with (quot (Coin.heads c) 100)
    in Hrun.
  set (f1 := Figure _ _ _) in Hrun.
  rewrite !emit_bind in Hrun.
  lazymatch type of Hrun with (_ ≫= _) ?st = _ => set (s1 := st) in Hrun end.
  assert (R1 : results s1 = <["coin_tosses" := CoinTosses c]> (results s))
    by reflexivity.
  assert (D1 : display s1 =
               display s ++ [Print "Running coin toss simulation..."; f1;
                             Print ""; Print "Running die roll simulation..."]).
  { unfold s1, s0, shown. cbn [display]. by rewrite <- !app_assoc. }
  clearbody s1. clear s0.
  (* die rolls *)
  pose proof (simulate_die_rolls_run 60 s1 ltac:(lia)) as H2.
  pose proof (draw_many_length 1 7 (Z.to_nat 60) (np_random s1)) as L2.
  pose proof (draw_many_range 1 7 (Z.to_nat 60) (np_random s1) ltac:(lia))
    as G2.
  cbv zeta in H2. change (range 1 7) with [1; 2; 3; 4; 5; 6] in H2.
  destruct (draw_many 1 7 (Z.to_nat 60) (np_random s1)) as [rolls g2].
  cbn [fst snd] in H2, L2, G2.
  set (d := Die.mk _ rolls) in H2.
  assert (T2 : py_sum (values (Die.counts d)) = 60).
  { unfold d. simpl. rewrite !values_insert by by simplify_map_eq.
    unfold values. rewrite map_to_list_empty, !get0_Counter.
    pose proof (count_faces rolls G2). unfold py_sum. simpl. lia. }
  assert (B2 : zip (Face <$> keys (Die.counts d)) (values (Die.counts d)) ≡ₚ
               (λ face, (Face face, count (λ x, x = face) (Die.raw_data d)))
                 <$> [1; 2; 3; 4; 5; 6]).
  { rewrite zip_keys_values. unfold d. simpl.
    rewrite !get0_Counter, !map_to_list_insert by by simplify_map_eq.
    rewrite map_to_list_empty. simpl. symmetry.
    apply (Permutation_rev
             [(Face 1, _); (Face 2, _); (Face 3, _); (Face 4, _);
              (Face 5, _); (Face 6, _)]). }
  rewrite (bind_returns _ _ _ _ _ H2) in Hrun; clear H2.
  erewrite (bind_returns plot_die_rolls) in Hrun
    by (apply plot_die_rolls_stored; apply lookup_insert_eq).
  rewrite T2 in Hrun.
  set (plotted := zip _ _) in Hrun, B2.
  set (f2 := Figure _ _ _) in Hrun.
  rewrite !emit_bind in Hrun.
  lazymatch type of Hrun with (_ ≫= _) ?st = _ => set (s2 := st) in Hrun end.
  assert (R2 : results s2 = <["die_rolls" := DieRolls d]> (results s1))
    by reflexivity.
  assert (D2 : display s2 =
               display s1 ++ [f2; Print "";
                              Print "Running card draw simulation..."]).
  { unfold s2, shown. cbn [display]. by rewrite <- !app_assoc. }
  clearbody s2 plotted.
  (* card draws *)
  pose proof (simulate_card_draws_run 20 s2) as H3.
  pose proof (shuffle_perm (range 1 53) (py_random s2)) as L3.
  cbv zeta in H3.
  destruct (shuffle (range 1 53) (py_random s2)) as [deck g3].
  cbn [fst snd] in H3, L3.
  set (k := Card.mk _ _ (slice_to deck 20)) in H3.
  assert (T3 : Card.red k + Card.black k = 20)
    by (unfold k; cbn [Card.red Card.black]; lia).
  rewrite (bind_returns _ _ _ _ _ H3) in Hrun; clear H3.
  lazymatch type of Hrun with (_ ≫= _) ?st = _ => set (s3 := st) in Hrun end.
  pose proof (plot_card_draws_stored k s3 (lookup_insert_eq _ _ _)) as P3.
  rewrite T3 in P3. change (20 =? 0) with false in P3. cbv iota in P3.
  set (f3 := Figure _ _ _) in P3.
  rewrite (bind_returns _ _ _ _ _ P3) in Hrun; clear P3.
  rewrite !emit_bind in Hrun.
  lazymatch type of Hrun with (_ ≫= _) ?st = _ => set (s4 := st) in Hrun end.
  assert (R4 : results s4 = <["card_draws" := CardDraws k]> (results s2))
    by reflexivity.
  assert (D4 : display s4 =
               display s2 ++ [f3; Print "";
                              Print "Running compound event simulation..."]).
  { unfold s4, s3, shown. cbn [display]. by rewrite <- !app_assoc. }
  clearbody s4. clear s3.
  (* compound events *)
  pose proof (simulate_compound_events_run 50 s4) as H4.
  pose proof (flips_length (Z.to_nat 50) (np_random s4)) as L4.
  cbv zeta in H4.
  destruct (flips (Z.to_nat 50) (np_random s4)) as [pairs g4].
  cbn [fst snd] in H4, L4.
  set (v := Compound.mk _ _ _ pairs) in H4.
  assert (T4 : Compound.at_least_one_head v + Compound.neither_head v = 50)
    by (unfold v; cbn [Compound.at_least_one_head Compound.neither_head]; lia).
  rewrite (bind_returns _ _ _ _ _ H4) in Hrun; clear H4.
  lazymatch type of Hrun with _ ?st = _ => set (s5 := st) in Hrun end.
  pose proof (plot_compound_events_stored v s5 (lookup_insert_eq _ _ _)) as P4.
  cbv zeta in P4.
  replace (Compound.at_least_one_head v - Compound.both_heads v
           + Compound.neither_head v)
    with (50 - Compound.both_heads v) in P4 by lia.
  replace (Compound.both_heads v + (50 - Compound.both_heads v))
    with 50 in P4 by lia.
  change (50 =? 0) with false in P4. cbv iota in P4.
  rewrite P4 in Hrun; clear P4.
  injection Hrun as <- <-.
  exists c, d, k, v, plotted, g4, (py_random s4).
  split.
  { unfold s5, shown. cbn [results np_random py_random display].
    rewrite R4, R2, R1, D4, D2, D1, <- !app_assoc. reflexivity. }
  split; [exact B2|]. unfold c, d, k, v in *.
  cbn [Coin.raw_data Die.raw_data Card.raw_data Compound.raw_data] in *.
  split; [split; [done|by rewrite L1]|]. split; [by rewrite L2|].
  split; [|split; [done|by rewrite L4]].
  split; [done|].
  rewrite slice_to_within, length_take by (rewrite L3, range_length; lia).
  rewrite L3, range_length. lia.
Qed.

(** X6. The run of the program (a new simulator, then
    [run_all_simulations]) never raises, whatever the random sources
    produce: it leaves exactly the four records, of 100 tosses, 60 rolls,
    20 draws and 50 trials, and prints or shows, in this order, each
    announcement followed by the figure of its experiment, with titles 100
    and 20, the probabilities over 100, 20 and 50, the expected frequency
    60/6 and one bar per face, and an empty line before the second, third
    and fourth announcement. *)
Theorem run_all_simulations_completes (np_seeded : GN) (py_seeded : GP) :
  ∃ c d k v plotted g_np g_py,
    run_all_simulations (init np_seeded py_seeded) =
      (inr (),
       mkState
         (<["compound_events" := CompoundEvents v]>
            (<["card_draws" := CardDraws k]>
               (<["die_rolls" := DieRolls d]>
                  (<["coin_tosses" := CoinTosses c]> ∅))))
         g_np g_py
         [Print "Running coin toss simulation...";
          Figure (Some 100)
            [[(Name "Heads", Coin.heads c); (Name "Tails", Coin.tails c)]]
            [("Probability of Heads: ", quot (Coin.heads c) 100)];
          Print ""; Print "Running die roll simulation...";
          Figure None [plotted]
            [("Expected frequency for each face: ", quot 60 6)];
          Print ""; Print "Running card draw simulation...";
          Figure (Some 20)
            [[(Name "Red Cards", Card.red k);
              (Name "Black Cards", Card.black k)]]
            [("Probability of Red Card: ", quot (Card.red k) 20)];
          Print ""; Print "Running compound event simulation...";
          Figure None
            [[(Name "Both Heads", Compound.both_heads v);
              (Name "Not Both Heads", 50 - Compound.both_heads v)];
             [(Name "At Least One Head", Compound.at_least_one_head v);
              (Name "No Heads", Compound.neither_head v)]]
            [("P(Both Heads): ", quot (Compound.both_heads v) 50);
             ("P(At Least One Head): ",
              quot (Compound.at_least_one_head v) 50)]]) ∧
    plotted ≡ₚ
      (λ face, (Face face, count (λ x, x = face) (Die.raw_data d)))
        <$> [1; 2; 3; 4; 5; 6] ∧
    (Coin.heads c + Coin.tails c = 100 ∧
     length (Coin.raw_data c) = 100%nat) ∧
    length (Die.raw_data d) = 60%nat ∧
    (Card.red k + Card.black k = 20 ∧ length (Card.raw_data k) = 20%nat) ∧
    (Compound.at_least_one_head v + Compound.neither_head v = 50 ∧
     length (Compound.raw_data v) = 50%nat).
Proof.
  destruct (run_all_simulations_run (init np_seeded py_seeded))
    as (c & d & k & v & plotted & g_np & g_py & Hrun & Hrest).
  by exists c, d, k, v, plotted, g_np, g_py.
Qed.

End RunAll.

(** ** The generator an experiment draws from *)

Section Calls.
Context `{!NumpyRandom GN} `{!PyRandom GP}.
Implicit Types s : State GN GP.

(** X8. Each experiment draws from one of the two global generators and
    leaves the other one, and the display, as they were: the card draw
    uses [random] only, the three others [numpy.random] only. Two runs
    that agree on the generator the experiment draws from return the same
    record, whatever the state of the other generator. *)
Theorem simulate_generator_use (e : experiment) (n : Z) s1 s2 :
  drawn_from e s1 = drawn_from e s2 →
  (simulate e n s1).1 = (simulate e n s2).1 ∧
  drawn_from e (simulate e n s1).2 = drawn_from e (simulate e n s2).2 ∧
  left_alone e (simulate e n s1).2 = left_alone e s1 ∧
  display (simulate e n s1).2 = display s1.
Proof.
  intros Hg. destruct e; simpl in *; injection Hg as Hg.
  - destruct (Z.lt_ge_cases n 0) as [Hn|Hn].
    + rewrite !simulate_coin_tosses_negative by done. simpl. by rewrite Hg.
    + rewrite !simulate_coin_tosses_run by done. simpl. by rewrite Hg.
  - destruct (Z.lt_ge_cases n 0) as [Hn|Hn].
    + rewrite !simulate_die_rolls_negative by done. simpl. by rewrite Hg.
    + rewrite !simulate_die_rolls_run by done. simpl. by rewrite Hg.
  - rewrite !simulate_card_draws_run. simpl. by rewrite Hg.
  - rewrite !simulate_compound_events_run. simpl. by rewrite Hg.
Qed.

End Calls.

(** ** Records stay under their own key *)

Lemma well_shaped_spec {GN GP} (s : State GN GP) :
  well_shaped s = true ↔
  ∀ e r, results s !! key e = Some r → shape r = e.
Proof.
  unfold well_shaped, experiments. simpl. rewrite !andb_true_iff. split.
  - intros (H1 & H2 & H3 & H4 & _) e r Hr.
    destruct e; simpl in Hr; rewrite Hr in *;
      by match goal with H : bool_decide _ = true |- _ =>
           apply bool_decide_eq_true_1 in H end.
  - intros H. repeat split; try done; case_match; try done;
      apply bool_decide_eq_true_2.
    + by apply (H coin_tosses).
    + by apply (H die_rolls).
    + by apply (H card_draws).
    + by apply (H compound_events).
Qed.

Lemma well_shaped_results {GN GP} (s1 s2 : State GN GP) :
  results s1 = results s2 → well_shaped s1 = well_shaped s2.
Proof. intros H. unfold well_shaped. by rewrite H. Qed.

Lemma plottable_spec {GN GP} (s : State GN GP) :
  plottable s = true ↔
  ∀ e r, results s !! key e = Some r → plottable_result r = true.
Proof.
  unfold plottable, experiments. simpl. rewrite !andb_true_iff. split.
  - intros (H1 & H2 & H3 & H4 & _) e r Hr.
    destruct e; simpl in Hr; by rewrite Hr in *.
  - intros H. repeat split; try done; case_match; try done.
    + by apply (H coin_tosses).
    + by apply (H die_rolls).
    + by apply (H card_draws).
    + by apply (H compound_events).
Qed.

Lemma int64_spec (z : Z) :
  int64 z = true ↔ - 9223372036854775808 ≤ z < 9223372036854775808.
Proof.
  unfold int64. rewrite andb_true_iff, Z.leb_le, Z.ltb_lt.
  by change (2 ^ 63) with 9223372036854775808.
Qed.

Lemma plottable_count_spec (z : Z) :
  plottable_count z = true ↔
  - 18446744073709551616 ≤ z ≤ 18446744073709551616.
Proof.
  unfold plottable_count. rewrite andb_true_iff, !Z.leb_le.
  by change (2 ^ 64) with 18446744073709551616.
Qed.

Lemma tally_values (rolls : list Z) (v : Z) :
  v ∈ values (foldl (λ d face, <[face := get0 (Counter rolls) face]> d) ∅
                [1; 2; 3; 4; 5; 6]) →
  0 ≤ v ≤ Z.of_nat (length rolls).
Proof.
  unfold values. intros ([k v'] & -> & H)%list_elem_of_fmap.
  apply elem_of_map_to_list in H. simpl in *.
  repeat match type of H with
         | <[_:=_]> _ !! _ = _ =>
             apply lookup_insert_Some in H as [[<- <-]|[_ H]]
         end;
    try (rewrite get0_Counter; apply count_bounds).
  by rewrite lookup_empty in H.
Qed.

Lemma tidy_results {GN GP} (s1 s2 : State GN GP) :
  results s1 = results s2 → tidy s1 → tidy s2.
Proof.
  intros H. unfold tidy, well_shaped, plottable. by rewrite H.
Qed.

Lemma tidy_insert {GN GP} (s : State GN GP) (e : experiment) (r : Result)
    (g_np : GN) (g_py : GP) (shows : list Output) :
  tidy s → shape r = e → plottable_result r = true →
  tidy (mkState (<[key e := r]> (results s)) g_np g_py shows).
Proof.
  intros [Hw Hp] He Hr. split.
  - apply well_shaped_spec. intros e' r'. simpl.
    destruct (decide (e' = e)) as [->|Hne].
    + rewrite lookup_insert_eq. by intros [= <-].
    + rewrite lookup_insert_ne by (intros Hk; by apply key_inj in Hk).
      by apply well_shaped_spec.
  - apply plottable_spec. intros e' r'. simpl.
    destruct (decide (e' = e)) as [->|Hne].
    + rewrite lookup_insert_eq. by intros [= <-].
    + rewrite lookup_insert_ne by (intros Hk; by apply key_inj in Hk).
      by apply plottable_spec.
Qed.

Section Shape.
Context `{!NumpyRandom GN} `{!PyRandom GP}.
Implicit Types s : State GN GP.

(** The three ways a presentation can end. *)
Lemma plot_cases (e : experiment) s :
  (plot e s = (inl KeyError, s) ∧
   ∃ r, results s !! key e = Some r ∧ shape r ≠ e) ∨
  (plot e s = (inl ZeroDivisionError, s) ∧
   (e = card_draws ∨ e = compound_events) ∧
   ∃ r, results s !! key e = Some r ∧ total r = 0) ∨
  (∃ o, plot e s = (inr (), shown s o)) ∧
  ¬ ((e = card_draws ∨ e = compound_events) ∧
     ∃ r, results s !! key e = Some r ∧ total r = 0).
Proof.
  destruct (results s !! key e) as [r|] eqn:Hs.
  2:{ right; right. rewrite plot_nothing_to_show by done.
      split; [eauto|]. by intros (_ & r & ? & _). }
  destruct (decide (shape r = e)) as [<-|Hne].
  2:{ left. rewrite (plot_misplaced e r) by done. eauto. }
  assert (Htot : ∀ r', Some r = Some r' → total r' = total r)
    by (by intros r' [= <-]).
  destruct r as [c|d|c|c]; simpl in *.
  - right; right. rewrite (plot_coin_tosses_stored c) by done.
    split; [eauto|]. by intros ([?|?] & _).
  - right; right. rewrite (plot_die_rolls_stored d) by done.
    split; [eauto|]. by intros ([?|?] & _).
  - rewrite (plot_card_draws_stored c) by done.
    unfold py_sum in Htot; simpl in Htot.
    destruct (Z.eqb_spec (Card.red c + Card.black c) 0) as [Hz|Hz].
    + right; left. split; [done|]. split; [auto|].
      exists (CardDraws c). split; [done|]. simpl. unfold py_sum. simpl. lia.
    + right; right. split; [eauto|]. intros (_ & r' & Hr' & Hz').
      rewrite (Htot _ Hr') in Hz'. lia.
  - rewrite (plot_compound_events_stored c) by done. cbv zeta.
    unfold py_sum in Htot; simpl in Htot.
    destruct (Z.eqb_spec
                (Compound.both_heads c +
                 (Compound.at_least_one_head c - Compound.both_heads c +
                  Compound.neither_head c)) 0) as [Hz|Hz].
    + right; left. split; [done|]. split; [auto|].
      exists (CompoundEvents c). split; [done|]. simpl. unfold py_sum. simpl. lia.
    + right; right. split; [eauto|]. intros (_ & r' & Hr' & Hz').
      rewrite (Htot _ Hr') in Hz'. lia.
Qed.

(** What an experiment stores for a count in the 64-bit range. *)
Lemma simulate_plottable (e : experiment) (n : Z) s :
  int64 n = true →
  simulate e n s = (inl ValueError, s) ∨
  ∃ r g_np g_py,
    simulate e n s =
      (inr r, mkState (<[key e := r]> (results s)) g_np g_py (display s)) ∧
    shape r = e ∧ plottable_result r = true.
Proof.
  intros Hn%int64_spec. destruct e; simpl.
  - destruct (Z.lt_ge_cases n 0) as [Hneg|Hpos].
    { left. by apply simulate_coin_tosses_negative. }
    right. rewrite simulate_coin_tosses_run by done.
    pose proof (draw_many_length 0 2 (Z.to_nat n) (np_random s)) as Hlen.
    pose proof (draw_many_range 0 2 (Z.to_nat n) (np_random s) ltac:(lia))
      as Hrange.
    destruct (draw_many 0 2 _ _) as [tosses g]. simpl in *.
    pose proof (sum_bits tosses Hrange) as Hsum.
    pose proof (count_bounds (λ x, x = 1) tosses) as Hb.
    eexists _, _, _. split; [reflexivity|]. split; [done|]. simpl.
    rewrite np_sum_py_sum, andb_true_iff, !plottable_count_spec. lia.
  - destruct (Z.lt_ge_cases n 0) as [Hneg|Hpos].
    { left. by apply simulate_die_rolls_negative. }
    right. rewrite simulate_die_rolls_run by done.
    change (range 1 7) with [1; 2; 3; 4; 5; 6].
    pose proof (draw_many_length 1 7 (Z.to_nat n) (np_random s)) as Hlen.
    destruct (draw_many 1 7 _ _) as [rolls g]. simpl in *.
    eexists _, _, _. split; [reflexivity|]. split; [done|]. simpl.
    apply forallb_forall. intros v Hv%list_elem_of_In%tally_values.
    apply plottable_count_spec. lia.
  - right. rewrite simulate_card_draws_run.
    pose proof (shuffle_perm (range 1 53) (py_random s)) as Hperm.
    destruct (shuffle _ _) as [deck g]. simpl in *.
    assert (Hlen : (length (slice_to deck n) ≤ 52)%nat).
    { unfold slice_to. rewrite length_take, Hperm, range_length. lia. }
    rewrite py_sum_ones.
    pose proof (length_filter (λ card, card ≤ 26) (slice_to deck n)) as Hf.
    eexists _, _, _. split; [reflexivity|]. split; [done|]. simpl.
    rewrite andb_true_iff, !plottable_count_spec. lia.
  - right. rewrite simulate_compound_events_run.
    pose proof (flips_length (Z.to_nat n) (np_random s)) as Hlen.
    destruct (flips _ _) as [pairs g]. simpl in *.
    pose proof (count_bounds (λ p : Z * Z, p.1 = 1 ∧ p.2 = 1) pairs) as Hb.
    pose proof (count_bounds (λ p : Z * Z, p.1 = 1 ∨ p.2 = 1) pairs) as Ho.
    eexists _, _, _. split; [reflexivity|]. split; [done|]. simpl.
    rewrite !andb_true_iff, !plottable_count_spec. lia.
Qed.

Lemma keeps_bind {A B} (P : State GN GP → Prop) (m : M GN GP A)
    (f : A → M GN GP B) :
  keeps P m → (∀ a, keeps P (f a)) → keeps P (m ≫= f).
Proof.
  intros Hm Hf s Hs. specialize (Hm s Hs).
  unfold mbind, M_bind. destruct (m s) as [[x|a] s1]; simpl in *; [done|].
  by apply Hf.
Qed.

Lemma keeps_tidy_emit (o : Output) : keeps tidy (emit (GN:=GN) (GP:=GP) o).
Proof. intros s Hs. by apply (tidy_results s). Qed.

Lemma keeps_tidy_simulate (e : experiment) (n : Z) :
  int64 n = true → keeps tidy (simulate e n).
Proof.
  intros Hn s Hs.
  destruct (simulate_plottable e n s Hn) as [H|(r & g & g' & H & He & Hr)];
    rewrite H; simpl; [done|].
  by apply tidy_insert.
Qed.

Lemma keeps_tidy_plot (e : experiment) : keeps tidy (plot e).
Proof.
  intros s Hs.
  by destruct (plot_cases e s) as [[H _]|[[H _]|[[o H] _]]]; rewrite H.
Qed.

Lemma keeps_tidy_run_all : keeps tidy run_all_simulations.
Proof.
  unfold run_all_simulations.
  apply keeps_bind; [apply keeps_tidy_emit|intros _].
  apply keeps_bind;
    [exact (keeps_tidy_simulate coin_tosses 100 eq_refl)|intros _].
  apply keeps_bind; [exact (keeps_tidy_plot coin_tosses)|intros _].
  apply keeps_bind; [apply keeps_tidy_emit|intros _].
  apply keeps_bind; [apply keeps_tidy_emit|intros _].
  apply keeps_bind;
    [exact (keeps_tidy_simulate die_rolls 60 eq_refl)|intros _].
  apply keeps_bind; [exact (keeps_tidy_plot die_rolls)|intros _].
  apply keeps_bind; [apply keeps_tidy_emit|intros _].
  apply keeps_bind; [apply keeps_tidy_emit|intros _].
  apply keeps_bind;
    [exact (keeps_tidy_simulate card_draws 20 eq_refl)|intros _].
  apply keeps_bind; [exact (keeps_tidy_plot card_draws)|intros _].
  apply keeps_bind; [apply keeps_tidy_emit|intros _].
  apply keeps_bind; [apply keeps_tidy_emit|intros _].
  apply keeps_bind;
    [exact (keeps_tidy_simulate compound_events 50 eq_refl)|intros _].
  exact (keeps_tidy_plot compound_events).
Qed.

Lemma perform_tidy (c : call) s :
  modest_call c = true → tidy s → tidy (perform c s).
Proof.
  destruct c; simpl; intros Hc.
  - by apply keeps_tidy_simulate.
  - apply keeps_tidy_plot.
  - apply keeps_tidy_run_all.
Qed.

Lemma session_tidy (calls : list call) s :
  forallb modest_call calls = true → tidy s → tidy (session calls s).
Proof.
  unfold session. revert s.
  induction calls as [|c calls IH]; intros s Hcalls Hs; simpl; [done|].
  simpl in Hcalls. apply andb_true_iff in Hcalls as [Hc Hcalls].
  by apply IH, perform_tidy.
Qed.

(** X9. In a session whose records sit under their own keys and hold
    counts that a figure can take, a presentation raises exactly when it
    is the one of the card draw or of the compound event and the stored
    record has a zero total; the exception is then
    [ZeroDivisionError]. *)
Theorem plot_raises_iff (e : experiment) s (x : exn) :
  well_shaped s = true →
  plottable s = true →
  (plot e s).1 = inl x ↔
  x = ZeroDivisionError ∧ (e = card_draws ∨ e = compound_events) ∧
  ∃ r, results s !! key e = Some r ∧ total r = 0.
Proof.
  intros Hs _.
  destruct (plot_cases e s) as [[H Hr]|[[H Hr]|[[o H] Hr]]]; rewrite H; simpl.
  - destruct Hr as (r & Hr & Hne). destruct Hne.
    by apply (proj1 (well_shaped_spec s) Hs).
  - split; [intros [= <-]; by split | by intros (-> & _)].
  - split; [done|]. intros (_ & He & Hz). by destruct Hr.
Qed.

(** X10. Whatever calls a caller makes on a new simulator with counts in
    the 64-bit range, in whatever order, and whether they raise or not,
    every record in [self.results] stays under the key of its own
    experiment and holds counts that a figure can take; so the only
    exception a presentation can then raise is [ZeroDivisionError]. *)
Theorem session_plots_safely (calls : list call) (np_seeded : GN)
    (py_seeded : GP) (e : experiment) (x : exn) :
  forallb modest_call calls = true →
  let s := session calls (init np_seeded py_seeded) in
  (∀ e' r, results s !! key e' = Some r →
     shape r = e' ∧ plottable_result r = true) ∧
  ((plot e s).1 = inl x → x = ZeroDivisionError).
Proof.
  intros Hcalls. simpl.
  assert (Hs : tidy (session calls (init np_seeded py_seeded))).
  { apply session_tidy; [done|]. by split. }
  destruct Hs as [Hw Hp]. split.
  { intros e' r Hr. split.
    - by apply (proj1 (well_shaped_spec _) Hw).
    - by apply (proj1 (plottable_spec _) Hp e'). }
  destruct (plot_cases e (session calls (init np_seeded py_seeded)))
    as [[H Hr]|[[H Hr]|[[o H] Hr]]]; rewrite H; simpl.
  - destruct Hr as (r & Hr & Hne). destruct Hne.
    by apply (proj1 (well_shaped_spec _) Hw).
  - by intros [= <-].
  - done.
Qed.

End Shape.

(** ** The unit tests *)

Section UnitTests.
Context `{!NumpyRandom GN} `{!PyRandom GP}.
Implicit Types s : State GN GP.

Lemma test_coin_tosses_normal_passes s :
  run_test test_coin_tosses_normal s = passed.
Proof.
  pose proof (simulate_coin_tosses_run 100 s ltac:(lia)) as H.
  pose proof (draw_many_length 0 2 (Z.to_nat 100) (np_random s)) as Hlen.
  pose proof (draw_many_range 0 2 (Z.to_nat 100) (np_random s) ltac:(lia))
    as Hrange.
  cbv zeta in H. destruct (draw_many 0 2 _ _) as [tosses g].
  cbn [fst snd] in *.
  pose proof (sum_bits tosses Hrange) as Hsum.
  pose proof (count_bounds (λ x, x = 1) tosses) as Hb.
  unfold run_test, test_coin_tosses_normal.
  rewrite (bind_returns _ _ _ _ _ H). cbn [Coin.heads Coin.tails].
  rewrite np_sum_py_sum, !bool_decide_eq_true_2 by lia. reflexivity.
Qed.

Lemma test_coin_tosses_zero_passes s :
  run_test test_coin_tosses_zero s = passed.
Proof.
  unfold run_test, test_coin_tosses_zero.
  by rewrite (bind_returns _ _ _ _ _ (simulate_coin_tosses_run 0 s ltac:(lia))).
Qed.

Lemma test_die_rolls_normal_passes s :
  run_test test_die_rolls_normal s = passed.
Proof.
  pose proof (simulate_die_rolls_run 60 s ltac:(lia)) as H.
  pose proof (draw_many_length 1 7 (Z.to_nat 60) (np_random s)) as Hlen.
  pose proof (draw_many_range 1 7 (Z.to_nat 60) (np_random s) ltac:(lia))
    as Hrange.
  cbv zeta in H. destruct (draw_many 1 7 _ _) as [rolls g].
  cbn [fst snd] in *. change (range 1 7) with [1; 2; 3; 4; 5; 6] in H.
  unfold run_test, test_die_rolls_normal.
  rewrite (bind_returns _ _ _ _ _ H). cbn [Die.counts].
  change (range 1 7) with [1; 2; 3; 4; 5; 6].
  set (counts := foldl _ ∅ _).
  assert (H1 : py_sum (values counts) = 60).
  { unfold counts. simpl. rewrite !values_insert by by simplify_map_eq.
    unfold values. rewrite map_to_list_empty, !get0_Counter.
    pose proof (count_faces rolls Hrange). unfold py_sum. simpl. lia. }
  assert (H2 : forallb (λ face, bool_decide (is_Some (counts !! face)))
                 [1; 2; 3; 4; 5; 6] = true).
  { unfold counts. simpl. rewrite !andb_true_iff.
    repeat split; try done; apply bool_decide_eq_true_2;
      by simplify_map_eq. }
  assert (H3 : forallb (λ count, bool_decide (0 ≤ count ≤ 60))
                 (values counts) = true).
  { apply forallb_forall. intros v Hv%list_elem_of_In%tally_values.
    apply bool_decide_eq_true_2. lia. }
  unfold mret, M_ret. cbn [fst].
  by rewrite (bool_decide_eq_true_2 _ H1), H2, H3.
Qed.

Lemma test_card_draws_normal_passes s :
  run_test test_card_draws_normal s = passed.
Proof.
  pose proof (simulate_card_draws_run 20 s) as H.
  pose proof (shuffle_perm (range 1 53) (py_random s)) as Hperm.
  cbv zeta in H. destruct (shuffle _ _) as [deck g]. cbn [fst snd] in *.
  assert (Hlen : length (slice_to deck 20) = 20%nat).
  { rewrite slice_to_within, length_take by (rewrite Hperm, range_length; lia).
    rewrite Hperm, range_length. lia. }
  rewrite py_sum_ones in H.
  pose proof (count_bounds (λ card, card ≤ 26) (slice_to deck 20)) as Hb.
  unfold count in Hb.
  unfold run_test, test_card_draws_normal.
  rewrite (bind_returns _ _ _ _ _ H). cbn [Card.red Card.black].
  rewrite !bool_decide_eq_true_2 by lia. reflexivity.
Qed.

Lemma test_compound_events_consistency_passes s :
  run_test test_compound_events_consistency s = passed.
Proof.
  pose proof (simulate_compound_events_run 100 s) as H.
  cbv zeta in H. destruct (flips _ _) as [pairs g]. cbn [fst snd] in *.
  unfold run_test, test_compound_events_consistency.
  rewrite (bind_returns _ _ _ _ _ H).
  cbn [Compound.both_heads Compound.at_least_one_head Compound.neither_head].
  pose proof (count_mono (λ p : Z * Z, p.1 = 1 ∧ p.2 = 1)
                (λ p, p.1 = 1 ∨ p.2 = 1) pairs ltac:(simpl; tauto)).
  rewrite !bool_decide_eq_true_2 by lia. reflexivity.
Qed.

(** X11. The five unit tests that assert exact relations
    ([test_coin_tosses_normal], [test_die_rolls_normal],
    [test_card_draws_normal], [test_coin_tosses_zero],
    [test_compound_events_consistency]) pass after [setUp] whatever the
    two generators produce: none of them depends on the seed. *)
Theorem unit_tests_pass (seed42 np_seeded : GN) (py_seeded : GP) :
  let s := setUp seed42 np_seeded py_seeded in
  run_test test_coin_tosses_normal s = passed ∧
  run_test test_die_rolls_normal s = passed ∧
  run_test test_card_draws_normal s = passed ∧
  run_test test_coin_tosses_zero s = passed ∧
  run_test test_compound_events_consistency s = passed.
Proof.
  intros s. split; [apply test_coin_tosses_normal_passes|].
  split; [apply test_die_rolls_normal_passes|].
  split; [apply test_card_draws_normal_passes|].
  split; [apply test_coin_tosses_zero_passes|].
  apply test_compound_events_consistency_passes.
Qed.

End UnitTests.

(** ** These theorems at work on the concrete generator *)

Lemma coin_tosses_presented_witness :
  0 ≤ 10 ∧
  ∃ r s1,
    simulate_coin_tosses 10 (seeded 42 7) = (inr (CoinTosses r), s1) ∧
    0 ≤ Coin.heads r ≤ 10 ∧
    plot_coin_tosses s1 =
      (inr (),
       shown s1 (Figure (Some 10)
                   [[(Name "Heads", Coin.heads r);
                     (Name "Tails", 10 - Coin.heads r)]]
                   [("Probability of Heads: ",
                     if 10 =? 0 then nan else quot (Coin.heads r) 10)])).
Proof.
  split; [lia | apply (coin_tosses_presented 10 (seeded 42 7)); lia].
Defined.

Lemma die_rolls_presented_witness :
  0 ≤ 10 ∧
  ∃ r s1 plotted,
    simulate_die_rolls 10 (seeded 42 7) = (inr (DieRolls r), s1) ∧
    plot_die_rolls s1 =
      (inr (),
       shown s1 (Figure None [plotted]
                   [("Expected frequency for each face: ", quot 10 6)])) ∧
    plotted ≡ₚ
      (λ face, (Face face, count (λ x, x = face) (Die.raw_data r)))
        <$> [1; 2; 3; 4; 5; 6].
Proof.
  split; [lia | apply (die_rolls_presented 10 (seeded 42 7)); lia].
Defined.

Lemma simulate_generator_use_witness :
  drawn_from coin_tosses (seeded 42 7) = drawn_from coin_tosses (seeded 42 99) ∧
  (simulate coin_tosses 10 (seeded 42 7)).1 =
    (simulate coin_tosses 10 (seeded 42 99)).1 ∧
  drawn_from coin_tosses (simulate coin_tosses 10 (seeded 42 7)).2 =
    drawn_from coin_tosses (simulate coin_tosses 10 (seeded 42 99)).2 ∧
  left_alone coin_tosses (simulate coin_tosses 10 (seeded 42 7)).2 =
    left_alone coin_tosses (seeded 42 7) ∧
  display (simulate coin_tosses 10 (seeded 42 7)).2 = display (seeded 42 7).
Proof.
  split; [reflexivity|].
  apply (simulate_generator_use coin_tosses 10 (seeded 42 7) (seeded 42 99)).
  reflexivity.
Defined.

Lemma plot_raises_iff_witness :
  well_shaped no_draws = true ∧
  plottable no_draws = true ∧
  ((plot card_draws no_draws).1 = inl ZeroDivisionError ↔
   ZeroDivisionError = ZeroDivisionError ∧
   (card_draws = card_draws ∨ card_draws = compound_events) ∧
   ∃ r, results no_draws !! key card_draws = Some r ∧ total r = 0).
Proof.
  split; [by vm_compute|]. split; [by vm_compute|].
  apply (plot_raises_iff card_draws no_draws ZeroDivisionError);
    by vm_compute.
Defined.

Lemma card_draws_presented_witness :
  int64 53 = true ∧
  ∃ r s1,
    simulate_card_draws 53 (seeded 42 7) = (inr (CardDraws r), s1) ∧
    plot_card_draws s1 =
      if 53 =? 0 then (inl ZeroDivisionError, s1)
      else
        (inr (),
         shown s1 (Figure (Some 53)
                     [[(Name "Red Cards", Card.red r);
                       (Name "Black Cards", 53 - Card.red r)]]
                     [("Probability of Red Card: ", quot (Card.red r) 53)])).
Proof.
  split; [reflexivity|].
  apply (card_draws_presented 53 (seeded 42 7)). reflexivity.
Defined.

Lemma compound_events_presented_witness :
  int64 4 = true ∧
  ∃ r s1,
    simulate_compound_events 4 (seeded 42 7) = (inr (CompoundEvents r), s1) ∧
    let both := Compound.both_heads r in
    let one := Compound.at_least_one_head r in
    plot_compound_events s1 =
      if 4 =? 0 then (inl ZeroDivisionError, s1)
      else
        (inr (),
         shown s1 (Figure None
                     [[(Name "Both Heads", both);
                       (Name "Not Both Heads", 4 - both)];
                      [(Name "At Least One Head", one);
                       (Name "No Heads", 4 - one)]]
                     [("P(Both Heads): ", quot both 4);
                      ("P(At Least One Head): ", quot one 4)])).
Proof.
  split; [reflexivity|].
  apply (compound_events_presented 4 (seeded 42 7)). reflexivity.
Defined.

Lemma session_plots_safely_witness :
  forallb modest_call
    [Simulate card_draws 0; Plot card_draws; RunAll; Simulate coin_tosses (-1)]
    = true ∧
  let s :=
    session
      [Simulate card_draws 0; Plot card_draws; RunAll;
       Simulate coin_tosses (-1)]
      (init 42 7) in
  (∀ e' r, results s !! key e' = Some r →
     shape r = e' ∧ plottable_result r = true) ∧
  ((plot compound_events s).1 = inl KeyError →
   KeyError = ZeroDivisionError).
Proof.
  split; [reflexivity|].
  apply (session_plots_safely
           [Simulate card_draws 0; Plot card_draws; RunAll;
            Simulate coin_tosses (-1)]
           42 7 compound_events KeyError).
  reflexivity.
Defined.
